(** * vc-proposal-evaluator: text extraction and prompt construction

    A shallow embedding of [app.py]: the functions [extract_text],
    [build_prompt] and [evaluate_proposal], the Python values they handle
    ([str], [bytes], [io.BytesIO]) and the exceptions they catch.

    Python strings are sequences of code points, bytes are [Byte.byte]s, and
    a function that mutates the buffer or may raise lives in a small
    state-and-exception monad whose state survives a raised exception, as a
    Python object does. *)

From Stdlib Require Import List String Ascii NArith Bool Arith Lia.
Import ListNotations.

Set Implicit Arguments.

(** ** Python's [str] and [bytes] *)

Module Py.

(** A [str] is a sequence of Unicode code points. *)
Definition str := list N.
Definition bytes := list Byte.byte.

(** An ASCII literal of the source, as a [str]. *)
Definition lit (s : string) : str :=
  map N_of_ascii (list_ascii_of_string s).

(** An ASCII literal of the source, as [bytes]. *)
Definition blit (s : string) : bytes := list_byte_of_string s.

Definition LF : str := [10%N].

(** [a == b] *)
Fixpoint eqb (a b : str) : bool :=
  match a, b with
  | [], [] => true
  | x :: a', y :: b' => (x =? y)%N && eqb a' b'
  | _, _ => false
  end.

(** [c.isspace()] for a one-character string: the code points CPython's
    [Py_UNICODE_ISSPACE] accepts, which are the ones [str.strip()] removes. *)
Definition isspace (c : N) : bool :=
  ((9 <=? c) && (c <=? 13) || (28 <=? c) && (c <=? 32)
   || (c =? 133) || (c =? 160) || (c =? 5760)
   || (8192 <=? c) && (c <=? 8202)
   || (c =? 8232) || (c =? 8233) || (c =? 8239) || (c =? 8287)
   || (c =? 12288))%N.

Fixpoint lstrip (s : str) : str :=
  match s with
  | c :: s' => if isspace c then lstrip s' else s
  | [] => []
  end.

Definition rstrip (s : str) : str := rev (lstrip (rev s)).

(** [s.strip()] *)
Definition strip (s : str) : str := rstrip (lstrip s).

(** [sep.join(parts)] *)
Fixpoint join (sep : str) (parts : list str) : str :=
  match parts with
  | [] => []
  | [p] => p
  | p :: rest => p ++ sep ++ join sep rest
  end.

(** [x or ""] for [x] a [str] or [None]. *)
Definition or_empty (x : option str) : str :=
  match x with
  | Some s => s
  | None => []
  end.

(** [not s] for a string: the empty string is the only falsy one. *)
Definition falsy (s : str) : bool :=
  match s with
  | [] => true
  | _ :: _ => false
  end.

Fixpoint startswith (p s : str) : bool :=
  match p, s with
  | [], _ => true
  | a :: p', b :: s' => (a =? b)%N && startswith p' s'
  | _ :: _, [] => false
  end.

Definition endswith (p s : str) : bool := startswith (rev p) (rev s).

(** [needle in hay] *)
Fixpoint contains (needle hay : str) : bool :=
  startswith needle hay ||
  match hay with
  | [] => false
  | _ :: hay' => contains needle hay'
  end.

(** [s.lower()] on the letters A-Z; other code points are kept. *)
Definition lower_ascii (s : str) : str :=
  map (fun c => if (65 <=? c) && (c <=? 90) then c + 32 else c)%N s.

(** A string is trimmed when neither end is a whitespace character. *)
Definition trimmed (s : str) : bool :=
  match s with
  | [] => true
  | c :: _ => negb (isspace c) && negb (isspace (last s c))
  end.

(** [IS_CONTINUATION_BYTE] of CPython's UTF-8 decoder. *)
Definition is_continuation (b : N) : bool := ((128 <=? b) && (b <? 192))%N.

(** [b.decode("utf-8", errors="ignore")], after CPython's decoder: a
    well-formed sequence gives its code point; at an ill-formed one the
    decoder reports an error span (one byte for an invalid start byte, the
    bytes read so far for an invalid continuation byte, everything up to the
    end of the input for a truncated sequence) and the [ignore] handler
    resumes after the span, adding nothing. *)
Fixpoint decode_utf8_ignore (b : bytes) : str :=
  match b with
  | [] => []
  | b0 :: r1 =>
    let ch := Byte.to_N b0 in
    if (ch <? 128)%N then ch :: decode_utf8_ignore r1
    else if (ch <? 194)%N then decode_utf8_ignore r1
    else if (ch <? 224)%N then
      match r1 with
      | [] => []
      | b1 :: r2 =>
        let ch2 := Byte.to_N b1 in
        if negb (is_continuation ch2) then decode_utf8_ignore r1
        else (N.shiftl ch 6 + ch2 - (N.shiftl 192 6 + 128))%N
             :: decode_utf8_ignore r2
      end
    else if (ch <? 240)%N then
      match r1 with
      | [] => []
      | b1 :: r2 =>
        let ch2 := Byte.to_N b1 in
        if negb (is_continuation ch2)
           || (if (ch2 <? 160)%N then (ch =? 224)%N else (ch =? 237)%N)
        then decode_utf8_ignore r1
        else
          match r2 with
          | [] => []
          | b2 :: r3 =>
            let ch3 := Byte.to_N b2 in
            if negb (is_continuation ch3) then decode_utf8_ignore r2
            else (N.shiftl ch 12 + N.shiftl ch2 6 + ch3
                  - (N.shiftl 224 12 + N.shiftl 128 6 + 128))%N
                 :: decode_utf8_ignore r3
          end
      end
    else if (ch <? 245)%N then
      match r1 with
      | [] => []
      | b1 :: r2 =>
        let ch2 := Byte.to_N b1 in
        if negb (is_continuation ch2)
           || (if (ch2 <? 144)%N then (ch =? 240)%N else (ch =? 244)%N)
        then decode_utf8_ignore r1
        else
          match r2 with
          | [] => []
          | b2 :: r3 =>
            let ch3 := Byte.to_N b2 in
            if negb (is_continuation ch3) then decode_utf8_ignore r2
            else
              match r3 with
              | [] => []
              | b3 :: r4 =>
                let ch4 := Byte.to_N b3 in
                if negb (is_continuation ch4) then decode_utf8_ignore r3
                else (N.shiftl ch 18 + N.shiftl ch2 12 + N.shiftl ch3 6 + ch4
                      - (N.shiftl 240 18 + N.shiftl 128 12
                         + N.shiftl 128 6 + 128))%N
                     :: decode_utf8_ignore r4
              end
          end
      end
    else decode_utf8_ignore r1
  end.

(** Bytes given by their numeric values (values above 255 become zero). *)
Definition bytes_of (l : list N) : bytes :=
  map (fun n => match Byte.of_N n with Some x => x | None => Byte.x00 end) l.

End Py.

(** ** [build_prompt] *)

Definition NB_HYPHEN : Py.str := [8209%N].  (* U+2011 *)
Definition EN_DASH : Py.str := [8211%N].    (* U+2013 *)
Definition RSQUO : Py.str := [8217%N].      (* U+2019 *)

Import Py.

(** The local [criteria_description] of [build_prompt]: the adjacent string
    literals of the source, one line each. *)
Definition criteria_description : Py.str :=
  lit "You are an experienced venture" ++ NB_HYPHEN ++ lit "capital analyst.  Based on the FNR JUMP "
  ++ lit "Programme review guidelines, evaluate the following project proposal.  "
  ++ lit "Assess it against these criteria:" ++ LF
  ++ lit "1. Novelty " ++ EN_DASH ++ lit " is the technology or concept novel/disruptive, and is there "
  ++ lit "enough evidence to show scientific robustness?" ++ LF
  ++ lit "2. Market/customer understanding and commercialisation strengths (for "
  ++ lit "commercial projects) " ++ EN_DASH ++ lit " how well does the team understand the market and "
  ++ lit "target customers, and what are the plans for bringing the product to market?" ++ LF
  ++ lit "3. Social needs and methodology (for social impact projects) " ++ EN_DASH ++ lit " has the "
  ++ lit "proposal identified a clear societal need and provided a suitable methodology "
  ++ lit "for addressing it?" ++ LF
  ++ lit "4. Impact magnitude " ++ EN_DASH ++ lit " what is the expected scale of impact?" ++ LF
  ++ lit "5. Intellectual property and validation " ++ EN_DASH ++ lit " what is the status of IP and "
  ++ lit "technical validation?" ++ LF
  ++ lit "6. Team competences and expertise " ++ EN_DASH ++ lit " assess the team" ++ RSQUO ++ lit "s experience and the "
  ++ lit "fit of any entrepreneur in residence (EiR) if applicable." ++ LF ++ LF
  ++ lit "Provide a structured analysis highlighting strengths, weaknesses, risks and "
  ++ lit "opportunities for each criterion.  Offer recommendations for improvement "
  ++ lit "but **do not** make a final funding decision.  Do **not** use sensitive "
  ++ lit "personal attributes (e.g. race, gender, health) in your reasoning.  "
  ++ lit "Instead focus on objective, project" ++ NB_HYPHEN ++ lit "related factors.  At the end, "
  ++ lit "summarise the overall investment outlook.".

(** The literal text between the two interpolations of the f-string. *)
Definition proposal_separator : Py.str :=
  LF ++ LF ++ lit "Here is the proposal:" ++ LF ++ LF.

(** An f-string is a sequence of literal pieces and interpolated values. *)
Inductive fpiece : Type :=
| FLiteral (s : Py.str)
| FValue (v : Py.str).

Definition fstring (pieces : list fpiece) : Py.str :=
  List.concat (map (fun p => match p with FLiteral s => s | FValue v => v end) pieces).

Definition build_prompt (document_text : Py.str) : Py.str :=
  fstring [FValue criteria_description;
           FLiteral proposal_separator;
           FValue (strip document_text)].

(** The fixed part of every prompt: the instructions and the separator. *)
Definition prompt_header : Py.str := criteria_description ++ proposal_separator.

(** The six criteria, by the words that open each numbered item. *)
Definition six_criteria : list Py.str :=
  [ lit "1. Novelty ";
    lit "2. Market/customer understanding and commercialisation strengths";
    lit "3. Social needs and methodology";
    lit "4. Impact magnitude ";
    lit "5. Intellectual property and validation ";
    lit "6. Team competences and expertise " ].

(** The constraints on the model's answer. *)
Definition behavioral_constraints : list Py.str :=
  [ lit "strengths, weaknesses, risks and opportunities for each criterion";
    lit "but **do not** make a final funding decision";
    lit "Do **not** use sensitive personal attributes";
    lit "summarise the overall investment outlook." ].

(** ** Exceptions, state and the buffer *)

(** A raised exception: its class name and its message ([str(exc)]).  Every
    class raised here derives from [Exception], so [except Exception]
    catches it. *)
Inductive exn : Type :=
| Raised (cls : string) (msg : Py.str).

Definition exn_str (e : exn) : Py.str :=
  match e with Raised _ msg => msg end.

(** A computation over a mutable state [S] that returns or raises.  The
    state is kept when an exception is raised. *)
Definition M (S A : Type) : Type := S -> (exn + A) * S.

Definition ret {S A} (a : A) : M S A := fun s => (inr a, s).

Definition raise {S A} (e : exn) : M S A := fun s => (inl e, s).

Definition bind {S A B} (m : M S A) (f : A -> M S B) : M S B :=
  fun s =>
    match m s with
    | (inr a, s') => f a s'
    | (inl e, s') => (inl e, s')
    end.

(** [try: body / except Exception: handler] *)
Definition try_except {S A} (body : M S A) (handler : exn -> M S A) : M S A :=
  fun s =>
    match body s with
    | (inl e, s') => handler e s'
    | (inr a, s') => (inr a, s')
    end.

Declare Scope py_scope.
Delimit Scope py_scope with py.
Notation "x <- m ;; k" := (bind m (fun x => k))
  (at level 61, m at next level, right associativity) : py_scope.
Notation "m ;; k" := (bind m (fun _ => k))
  (at level 61, right associativity) : py_scope.
Local Open Scope py_scope.

(** An [io.BytesIO]: its content, its position and whether it was closed. *)
Record BytesIO : Type := mkBytesIO {
  getvalue : Py.bytes;
  tell : nat;
  closed : bool
}.

(** [io.BytesIO(data)] *)
Definition BytesIO_new (data : Py.bytes) : BytesIO :=
  {| getvalue := data; tell := 0; closed := false |}.

Definition closed_file : exn :=
  Raised "ValueError" (lit "I/O operation on closed file.").

(** The calls [extract_text] makes on its buffer and on the parsers, in
    order. *)
Inductive call : Type :=
| CallSeek (offset : nat)
| CallPdfReader
| CallDocument
| CallRead.

Record world : Type := mkWorld {
  file_buffer : BytesIO;
  calls : list call
}.

Definition logged (c : call) (fb : BytesIO) (w : world) : world :=
  {| file_buffer := fb; calls := calls w ++ [c] |}.

(** [file_buffer.seek(offset)] *)
Definition seek (offset : nat) : M world nat :=
  fun w =>
    let fb := file_buffer w in
    if closed fb then (inl closed_file, logged (CallSeek offset) fb w)
    else (inr offset,
          logged (CallSeek offset)
                 {| getvalue := getvalue fb; tell := offset; closed := false |} w).

(** [file_buffer.read()]: the bytes from the current position to the end;
    the position advances by what was read. *)
Definition read : M world Py.bytes :=
  fun w =>
    let fb := file_buffer w in
    if closed fb then (inl closed_file, logged CallRead fb w)
    else
      let data := skipn (tell fb) (getvalue fb) in
      (inr data,
       logged CallRead
              {| getvalue := getvalue fb;
                 tell := tell fb + List.length data;
                 closed := false |} w).

(** ** The optional parsers

    [pypdf] and [python-docx] are libraries outside this repository.  A
    parser is given by what it answers on a buffer and by the state in which
    the buffer is when control leaves the [try] block that uses it: a parser
    reads the stream it is given, so the position it leaves is its own.  A
    call of a parser is taken to end, by returning or by raising an
    [Exception]. *)

(** [page.extract_text()]: a string, [None], or an exception. *)
Definition page : Type := (exn + option Py.str)%type.

(** An opened PDF: the pages [reader.pages] yields, and the exception that
    ends the iteration after them, if any. *)
Record PdfDocument : Type := mkPdf {
  pages : list page;
  pages_error : option exn
}.

(** An opened DOCX: for each paragraph of [document.paragraphs], what
    [p.text] gives. *)
Record DocxDocument : Type := mkDocx {
  paragraphs : list (exn + Py.str)
}.

Definition PdfReader_t : Type := BytesIO -> (exn + PdfDocument) * BytesIO.
Definition Document_t : Type := BytesIO -> (exn + DocxDocument) * BytesIO.

Definition mime_pdf : Py.str := lit "application/pdf".
Definition mime_docx : Py.str :=
  lit "application/vnd.openxmlformats-officedocument.wordprocessingml.document".
Definition mime_msword : Py.str := lit "application/msword".

(** [x in xs] for a list of strings. *)
Definition str_in (x : Py.str) (xs : list Py.str) : bool :=
  existsb (Py.eqb x) xs.

(** The [for page in reader.pages] loop: a page whose extraction raises is
    skipped ([continue]); an exception of the iteration itself is not caught
    here. *)
Fixpoint collect_pages (ps : list page) (pages_text : list Py.str)
  : list Py.str :=
  match ps with
  | [] => pages_text
  | p :: rest =>
    match p with
    | inr t => collect_pages rest (pages_text ++ [or_empty t])
    | inl _ => collect_pages rest pages_text
    end
  end.

(** [[p.text for p in document.paragraphs]]: the first [p.text] that raises
    ends the comprehension with its exception. *)
Fixpoint collect_paragraphs (ps : list (exn + Py.str)) : exn + list Py.str :=
  match ps with
  | [] => inr []
  | inl e :: _ => inl e
  | inr t :: rest =>
    match collect_paragraphs rest with
    | inl e => inl e
    | inr ts => inr (t :: ts)
    end
  end.

Section Extraction.

(** The module-level names [PdfReader] and [Document]: [None] when the
    import failed. *)
Variable PdfReader : option PdfReader_t.
Variable Document : option Document_t.

(** Calling a parser on the buffer. *)
Definition construct {D} (c : call) (ctor : BytesIO -> (exn + D) * BytesIO)
  : M world D :=
  fun w => let (r, fb) := ctor (file_buffer w) in (r, logged c fb w).

Definition of_result {S A} (r : exn + A) : M S A :=
  match r with
  | inl e => raise e
  | inr a => ret a
  end.

(** The PDF block: [Some text] when it returns, [None] when control goes
    on to the next statement. *)
Definition pdf_block (mime_type : Py.str) : M world (option Py.str) :=
  match Py.eqb mime_type mime_pdf, PdfReader with
  | true, Some ctor =>
    try_except
      (reader <- construct CallPdfReader ctor ;;
       let pages_text := collect_pages (pages reader) [] in
       match pages_error reader with
       | Some e => raise e
       | None => ret (Some (strip (join LF pages_text)))
       end)
      (fun _ => ret None)
  | _, _ => ret None
  end.

(** The DOCX block, likewise. *)
Definition docx_block (mime_type : Py.str) : M world (option Py.str) :=
  match str_in mime_type [mime_docx; mime_msword], Document with
  | true, Some ctor =>
    try_except
      (document <- construct CallDocument ctor ;;
       paragraphs <- of_result (collect_paragraphs (paragraphs document)) ;;
       ret (Some (strip (join LF paragraphs))))
      (fun _ => ret None)
  | _, _ => ret None
  end.

(** The fallback: the rest of the buffer, decoded as UTF-8. *)
Definition plain_text_block : M world Py.str :=
  try_except
    (text_bytes <- read ;;
     ret (decode_utf8_ignore text_bytes))
    (fun _ => ret []).

Definition extract_text (mime_type : Py.str) : M world Py.str :=
  seek 0 ;;
  r <- pdf_block mime_type ;;
  match r with
  | Some text => ret text
  | None =>
    r <- docx_block mime_type ;;
    match r with
    | Some text => ret text
    | None => plain_text_block
    end
  end.

(** [extract_text(io.BytesIO(data), mime_type)] as [main] calls it: the
    outcome, and the calls made. *)
Definition extract (data : Py.bytes) (mime_type : Py.str)
  : (exn + Py.str) * list call :=
  let (r, w) := extract_text mime_type
                  {| file_buffer := BytesIO_new data; calls := [] |} in
  (r, calls w).

End Extraction.

(** A PDF attempt fails when the constructor raises or when iterating
    [reader.pages] raises. *)
Definition pdf_failed (r : exn + PdfDocument) : bool :=
  match r with
  | inl _ => true
  | inr reader =>
    match pages_error reader with
    | Some _ => true
    | None => false
    end
  end.

Definition page_raises (p : page) : bool :=
  match p with
  | inl _ => true
  | inr _ => false
  end.

(** What a page adds to [pages_text] when its extraction does not raise. *)
Definition page_text (p : page) : Py.str :=
  match p with
  | inr t => or_empty t
  | inl _ => []
  end.

(** All pages other than page [k], in their order. *)
Definition other_pages (k : nat) (ps : list page) : list page :=
  firstn k ps ++ skipn (S k) ps.

(** The texts of the pages of a list, in their order; a page whose
    extraction raises has none. *)
Definition extracted_texts (ps : list page) : list Py.str :=
  flat_map (fun p => match p with
                     | inr t => [or_empty t]
                     | inl _ => []
                     end) ps.

(** *** Parsers used in the examples *)

Definition pdf_read_error : exn :=
  Raised "PdfReadError" (lit "EOF marker not found").

(** A reader that reads the five bytes of the header, rejects the file and
    leaves the position after the header. *)
Definition header_reader : PdfReader_t :=
  fun fb =>
    (inl pdf_read_error,
     {| getvalue := getvalue fb; tell := 5; closed := closed fb |}).

(** A reader that goes to the end of the stream to look for the trailer,
    finds none and leaves the position there. *)
Definition trailer_reader : PdfReader_t :=
  fun fb =>
    (inl pdf_read_error,
     {| getvalue := getvalue fb;
        tell := List.length (getvalue fb);
        closed := closed fb |}).

(** A reader that opens any file as two pages: the first has the text
    [" a"], the second raises when its text is extracted. *)
Definition two_pages : list page :=
  [inr (Some (lit " a")); inl (Raised "KeyError" (lit "/Contents"))].

Definition two_page_reader : PdfReader_t :=
  fun fb => (inr {| pages := two_pages; pages_error := None |}, fb).

(** A reader that opens any file as two pages of text, a page without a
    text layer between them, and leaves the position at the end. *)
Definition text_pages : list page :=
  [inr (Some (lit " Hello")); inr None; inr (Some (lit "World "))].

Definition text_page_reader : PdfReader_t :=
  fun fb =>
    (inr {| pages := text_pages; pages_error := None |},
     {| getvalue := getvalue fb;
        tell := List.length (getvalue fb);
        closed := closed fb |}).

(** A reader that opens any file as a scanned document: two pages, one
    with no text layer ([None]) and one with an empty text. *)
Definition scanned_reader : PdfReader_t :=
  fun fb =>
    (inr {| pages := [inr None; inr (Some [])]; pages_error := None |},
     {| getvalue := getvalue fb;
        tell := List.length (getvalue fb);
        closed := closed fb |}).

(** ** [evaluate_proposal] *)

(** What [evaluate_proposal] does to the outside, in order: messages shown
    with [st.error], the assignment to [openai.api_key], the call of
    [build_prompt] and the request to the chat endpoint. *)
Inductive action : Type :=
| StError (msg : Py.str)
| SetApiKey (api_key : Py.str)
| BuildPrompt (document_text : Py.str)
| ChatCompletionCreate (model : Py.str) (content : Py.str) (max_tokens : N).

(** [openai.ChatCompletion.create] followed by
    [response["choices"][0]["message"]["content"]]: the content, or the
    exception raised on the way.  The endpoint sees the key set before; the
    constant [temperature=0.3], a float, is left out of the request. *)
Definition openai_t : Type :=
  forall (api_key model content : Py.str) (max_tokens : N), exn + Py.str.

Definition act {A} (a : action) (x : A) : M (list action) A :=
  fun log => (inr x, log ++ [a]).

Section Evaluation.

(** The module-level name [openai]: [None] when the import failed. *)
Variable openai : option openai_t.

Definition st_error (msg : Py.str) : M (list action) unit :=
  act (StError msg) tt.

Definition evaluate_proposal (document_text api_key : Py.str)
  : M (list action) (option Py.str) :=
  match openai with
  | None =>
    st_error
      (lit "The openai package is not available.  Please ensure it is installed.") ;;
    ret None
  | Some client =>
    if falsy api_key then
      st_error (lit "Please provide a valid OpenAI API key.") ;;
      ret None
    else
      act (SetApiKey api_key) tt ;;
      prompt <- act (BuildPrompt document_text) (build_prompt document_text) ;;
      let model := lit "gpt-5-mini-2025-08-07" in
      try_except
        (content <- (fun log =>
                       (client api_key model prompt 1024%N,
                        log ++ [ChatCompletionCreate model prompt 1024])) ;;
         ret (Some (strip content)))
        (fun exc =>
           st_error (fstring [FLiteral (lit "Error communicating with OpenAI API: ");
                              FValue (exn_str exc)]) ;;
           ret None)
  end.

End Evaluation.

(** An endpoint that echoes the prompt it is sent. *)
Definition echo_client : openai_t :=
  fun _ _ content _ => inr content.

(** *** Further parsers and clients used in the examples *)

(** A DOCX reader that opens any file as two paragraphs and leaves the
    position at the end of the stream. *)
Definition two_paragraph_reader : Document_t :=
  fun fb =>
    (inr {| paragraphs := [inr (lit " Summary"); inr (lit "Budget ")] |},
     {| getvalue := getvalue fb;
        tell := List.length (getvalue fb);
        closed := closed fb |}).

(** A DOCX reader whose second paragraph raises when its text is read; the
    archive directory was read, the position is left at offset 4. *)
Definition broken_paragraph_reader : Document_t :=
  fun fb =>
    (inr {| paragraphs := [inr (lit "Summary");
                           inl (Raised "KeyError" (lit "w:t"));
                           inr (lit "Budget")] |},
     {| getvalue := getvalue fb; tell := 4; closed := closed fb |}).

(** A PDF reader that yields one page and then fails while iterating. *)
Definition broken_tree_reader : PdfReader_t :=
  fun fb =>
    (inr {| pages := [inr (Some (lit "Page one"))];
            pages_error := Some pdf_read_error |},
     {| getvalue := getvalue fb; tell := 9; closed := closed fb |}).

(** An endpoint that refuses every request. *)
Definition refusing_client : openai_t :=
  fun _ _ _ _ => inl (Raised "AuthenticationError" (lit "Incorrect API key provided")).

(** An endpoint that answers every request with the same text. *)
Definition constant_client (answer : Py.str) : openai_t :=
  fun _ _ _ _ => inr answer.

(** The model named in the request. *)
Definition chat_model : Py.str := lit "gpt-5-mini-2025-08-07".

Definition is_request (a : action) : bool :=
  match a with
  | ChatCompletionCreate _ _ _ => true
  | _ => false
  end.

(** A failed DOCX attempt: the constructor raises, or some [p.text] does. *)
Definition docx_failed (r : exn + DocxDocument) : bool :=
  match r with
  | inl _ => true
  | inr document =>
    existsb (fun p => match p with inl _ => true | inr _ => false end)
            (paragraphs document)
  end.

Definition is_ascii (b : Byte.byte) : bool := (Byte.to_N b <? 128)%N.

(** ** [main] *)

(** The decimal digits of a number, most significant first. *)
Fixpoint uint_digits (u : Decimal.uint) : Py.str :=
  match u with
  | Decimal.Nil => []
  | Decimal.D0 u' => 48%N :: uint_digits u'
  | Decimal.D1 u' => 49%N :: uint_digits u'
  | Decimal.D2 u' => 50%N :: uint_digits u'
  | Decimal.D3 u' => 51%N :: uint_digits u'
  | Decimal.D4 u' => 52%N :: uint_digits u'
  | Decimal.D5 u' => 53%N :: uint_digits u'
  | Decimal.D6 u' => 54%N :: uint_digits u'
  | Decimal.D7 u' => 55%N :: uint_digits u'
  | Decimal.D8 u' => 56%N :: uint_digits u'
  | Decimal.D9 u' => 57%N :: uint_digits u'
  end.

(** A comma after every third digit that has a digit after it; the digits
    come least significant first. *)
Fixpoint group_thousands (rev_digits : Py.str) : Py.str :=
  match rev_digits with
  | a :: b :: c :: (_ :: _) as more => a :: b :: c :: 44%N :: group_thousands more
  | _ => rev_digits
  end.

(** [f"{n:,}"] for a natural number. *)
Definition format_thousands (n : nat) : Py.str :=
  rev (group_thousands (rev (uint_digits (Nat.to_uint n)))).

(** What [st.file_uploader] returns when a file is there: its [type] and
    what its [read()] gives. *)
Record UploadedFile : Type := mkUploadedFile {
  upload_type : Py.str;
  upload_data : Py.bytes
}.

(** What one run of [main] does, in order: the Streamlit calls it makes
    itself, the calls [extract_text] makes, and what [evaluate_proposal]
    does.  [with st.spinner(...)] is entered and left. *)
Inductive st_call : Type :=
| StSetPageConfig (page_title page_icon : Py.str)
| StTitle (body : Py.str)
| StMarkdown (body : Py.str)
| StTextInput (label type_ value help : Py.str)
| StFileUploader (label : Py.str) (types : list Py.str)
| StErrorMain (body : Py.str)
| StWrite (body : Py.str)
| StButton (label : Py.str)
| StSpinnerEnter (text : Py.str)
| StSpinnerExit
| StSubheader (body : Py.str)
| Extracting (c : call)
| Evaluating (a : action).

Definition st {A} (c : st_call) (x : A) : M (list st_call) A :=
  fun log => (inr x, log ++ [c]).

(** [with st.spinner(text): body]: the spinner is left whether the body
    returns or raises. *)
Definition with_spinner {A} (text : Py.str) (body : M (list st_call) A)
  : M (list st_call) A :=
  fun log =>
    let (r, log') := body (log ++ [StSpinnerEnter text]) in
    (r, log' ++ [StSpinnerExit]).

Definition main_intro : Py.str :=
  lit "Upload a startup project proposal to receive a structured VC" ++ NB_HYPHEN ++ lit "style analysis "
  ++ lit "based on the FNR JUMP review criteria.  Your API key is required to call "
  ++ lit "OpenAI" ++ RSQUO ++ lit "s chat models.  The tool does not make funding decisions; it "
  ++ lit "provides analysis to aid your judgement.".

Definition extraction_failed_message : Py.str :=
  lit "Could not extract text from the uploaded file.  Please upload a "
  ++ lit "document in PDF, DOCX, or plain text format.".

(** The f-string shown after a successful extraction. *)
Definition extracted_message (proposal_text : Py.str) : Py.str :=
  fstring [FLiteral (lit "Extracted ");
           FValue (format_thousands (List.length proposal_text));
           FLiteral (lit " characters of text from the uploaded proposal.")].

Section Main.

(** The module-level names. *)
Variable PdfReader : option PdfReader_t.
Variable Document : option Document_t.
Variable openai : option openai_t.

(** [os.getenv("OPENAI_API_KEY", default)] *)
Variable getenv_OPENAI_API_KEY : Py.str -> Py.str.

(** What the widgets return in this run: the content of the key field,
    given the value it starts with; the uploaded file, if any; whether the
    button was pressed. *)
Variable text_input : Py.str -> Py.str.
Variable file_uploader : option UploadedFile.
Variable button : bool.

(** [extract_text(io.BytesIO(data), mime_type)] inside [main]. *)
Definition call_extract_text (data : Py.bytes) (mime_type : Py.str)
  : M (list st_call) Py.str :=
  fun log =>
    let (r, cs) := extract PdfReader Document data mime_type in
    (r, log ++ map Extracting cs).

(** [evaluate_proposal(document_text, api_key)] inside [main]. *)
Definition call_evaluate_proposal (document_text api_key : Py.str)
  : M (list st_call) (option Py.str) :=
  fun log =>
    let (r, acts) := evaluate_proposal openai document_text api_key [] in
    (r, log ++ map Evaluating acts).

Definition main : M (list st_call) unit :=
  st (StSetPageConfig (lit "Startup Proposal Evaluator") [128202%N]) tt ;;
  st (StTitle (lit "Startup Proposal Evaluator")) tt ;;
  st (StMarkdown main_intro) tt ;;
  let value := getenv_OPENAI_API_KEY [] in
  api_key_input <-
    st (StTextInput (lit "OpenAI API Key") (lit "password") value
                    (lit "Your key will only be used locally to query the OpenAI API."))
       (text_input value) ;;
  uploaded_file <-
    st (StFileUploader (lit "Upload proposal (PDF, DOCX, or TXT)")
                       [lit "pdf"; lit "docx"; lit "txt"])
       file_uploader ;;
  match uploaded_file with
  | None => ret tt
  | Some f =>
    let mime_type := upload_type f in
    proposal_text <- call_extract_text (upload_data f) mime_type ;;
    if falsy proposal_text then
      st (StErrorMain extraction_failed_message) tt
    else
      st (StWrite (extracted_message proposal_text)) tt ;;
      pressed <- st (StButton (lit "Evaluate Proposal")) button ;;
      if pressed then
        with_spinner (lit "Evaluating... this may take a minute")
          (result <- call_evaluate_proposal proposal_text api_key_input ;;
           if falsy (or_empty result) then ret tt
           else
             st (StSubheader (lit "AI" ++ NB_HYPHEN ++ lit "Generated Analysis")) tt ;;
             st (StMarkdown (or_empty result)) tt)
      else ret tt
  end.

End Main.

(** The five calls every run of [main] starts with, [value] being the
    initial content of the key field. *)
Definition main_widgets (value : Py.str) : list st_call :=
  [StSetPageConfig (lit "Startup Proposal Evaluator") [128202%N];
   StTitle (lit "Startup Proposal Evaluator");
   StMarkdown main_intro;
   StTextInput (lit "OpenAI API Key") (lit "password") value
               (lit "Your key will only be used locally to query the OpenAI API.");
   StFileUploader (lit "Upload proposal (PDF, DOCX, or TXT)")
                  [lit "pdf"; lit "docx"; lit "txt"]].

Definition analysis_heading : Py.str :=
  lit "AI" ++ NB_HYPHEN ++ lit "Generated Analysis".

(** What is shown for a result of [evaluate_proposal]. *)
Definition analysis_display (result : option Py.str) : list st_call :=
  if falsy (or_empty result) then []
  else [StSubheader analysis_heading; StMarkdown (or_empty result)].

Definition sends_request (c : st_call) : bool :=
  match c with
  | Evaluating a => is_request a
  | _ => false
  end.

Definition is_some {A} (o : option A) : bool :=
  match o with
  | Some _ => true
  | None => false
  end.

(** * Properties *)

(** ** Strings *)

Lemma str_eqb_eq (a b : Py.str) : Py.eqb a b = true <-> a = b.
Proof.
  revert b. induction a as [|x a IH]; intros [|y b]; simpl;
    try (split; [discriminate | discriminate]); try (split; reflexivity).
  rewrite andb_true_iff, N.eqb_eq, IH. split.
  - intros [-> ->]. reflexivity.
  - intros H. injection H as -> ->. split; reflexivity.
Qed.

Lemma str_eqb_refl (a : Py.str) : Py.eqb a a = true.
Proof. apply str_eqb_eq. reflexivity. Qed.

Lemma lstrip_head (s : Py.str) :
  match lstrip s with
  | [] => True
  | c :: _ => isspace c = false
  end.
Proof.
  induction s as [|c s IH]; simpl; [exact I|].
  destruct (isspace c) eqn:E; [exact IH | exact E].
Qed.

Lemma lstrip_split (s : Py.str) :
  exists p, s = p ++ lstrip s /\ forallb isspace p = true.
Proof.
  induction s as [|c s [p [Hs Hp]]]; simpl.
  - exists []. split; reflexivity.
  - destruct (isspace c) eqn:E.
    + exists (c :: p). simpl. rewrite E, Hp. split; [f_equal; exact Hs | reflexivity].
    + exists []. split; reflexivity.
Qed.

Lemma lstrip_spaces (s : Py.str) :
  forallb isspace s = true -> lstrip s = [].
Proof.
  induction s as [|c s IH]; simpl; [reflexivity|].
  destruct (isspace c); simpl; [exact IH | discriminate].
Qed.

Lemma lstrip_fixed (s : Py.str) :
  match s with [] => True | c :: _ => isspace c = false end -> lstrip s = s.
Proof.
  destruct s as [|c s]; simpl; [reflexivity|]. intros ->. reflexivity.
Qed.

Lemma strip_spaces (s : Py.str) :
  forallb isspace s = true -> strip s = [].
Proof.
  intros H. unfold strip, rstrip. rewrite (lstrip_spaces _ H). reflexivity.
Qed.

(** The result of [strip] has no whitespace at either end. *)
Lemma trimmed_strip (s : Py.str) : trimmed (strip s) = true.
Proof.
  unfold strip, rstrip.
  pose proof (lstrip_head s) as Hh.
  destruct (lstrip_split (rev (lstrip s))) as [p [Hs _]].
  pose proof (lstrip_head (rev (lstrip s))) as Hu.
  set (t := lstrip s) in *. set (u := lstrip (rev t)) in *.
  assert (Ht : t = rev u ++ rev p).
  { rewrite <- (rev_involutive t), Hs, rev_app_distr. reflexivity. }
  destruct u as [|c u']; [reflexivity|].
  simpl rev in *.
  assert (Hl : forall d, last (rev u' ++ [c]) d = c) by (intros; apply last_last).
  destruct (rev u' ++ [c]) as [|h r] eqn:Er.
  - reflexivity.
  - unfold trimmed. rewrite Hl, Hu. rewrite Ht in Hh. simpl in Hh. rewrite Hh.
    reflexivity.
Qed.

Lemma trimmed_fixed (s : Py.str) : trimmed s = true -> strip s = s.
Proof.
  intros H. unfold strip, rstrip.
  destruct s as [|c s]; [reflexivity|].
  unfold trimmed in H. apply andb_true_iff in H as [Hc Hl].
  apply negb_true_iff in Hc, Hl.
  rewrite (lstrip_fixed (c :: s)) by exact Hc.
  destruct (exists_last (l := c :: s)) as [b [z Hz]]; [discriminate|].
  rewrite Hz in *. rewrite last_last in Hl.
  rewrite rev_app_distr. simpl. rewrite Hl. simpl.
  rewrite rev_involutive. reflexivity.
Qed.

Lemma strip_idempotent (s : Py.str) : strip (strip s) = strip s.
Proof. apply trimmed_fixed, trimmed_strip. Qed.

(** ** The permissive decoder on ill-formed input *)

Example decode_drops_invalid_start_byte :
  decode_utf8_ignore (bytes_of [72; 255; 105]%N) = lit "Hi".
Proof. reflexivity. Qed.

Example decode_three_byte_sequence :
  decode_utf8_ignore (bytes_of [226; 130; 172]%N) = [8364%N].
Proof. reflexivity. Qed.

Example decode_drops_truncated_tail :
  decode_utf8_ignore (bytes_of [72; 226; 130]%N) = lit "H".
Proof. reflexivity. Qed.

Example decode_drops_overlong_form :
  decode_utf8_ignore (bytes_of [192; 128; 33]%N) = lit "!".
Proof. reflexivity. Qed.

Example decode_drops_surrogate :
  decode_utf8_ignore (bytes_of [237; 160; 128; 65]%N) = lit "A".
Proof. reflexivity. Qed.

Example decode_four_byte_sequence :
  decode_utf8_ignore (bytes_of [240; 159; 152; 128]%N) = [128512%N].
Proof. reflexivity. Qed.

Lemma startswith_refl (s : Py.str) : startswith s s = true.
Proof.
  induction s as [|c s IH]; simpl; [reflexivity|].
  rewrite N.eqb_refl. exact IH.
Qed.

Lemma startswith_app (p s : Py.str) : startswith p (p ++ s) = true.
Proof.
  induction p as [|c p IH]; simpl; [reflexivity|].
  rewrite N.eqb_refl. exact IH.
Qed.

Lemma startswith_firstn (p s : Py.str) :
  startswith p s = true <-> firstn (List.length p) s = p.
Proof.
  revert s. induction p as [|c p IH]; intros s; simpl.
  - split; reflexivity.
  - destruct s as [|d s]; simpl.
    + split; discriminate.
    + rewrite andb_true_iff, N.eqb_eq, IH. split.
      * intros [-> ->]. reflexivity.
      * intros H. injection H as -> H. split; [reflexivity | exact H].
Qed.

Lemma endswith_app (p s : Py.str) : endswith s (p ++ s) = true.
Proof. unfold endswith. rewrite rev_app_distr. apply startswith_app. Qed.

Lemma contains_startswith (p s : Py.str) :
  startswith p s = true -> contains p s = true.
Proof. intros H. destruct s; simpl; rewrite H; reflexivity. Qed.

(** ** [build_prompt] *)

(** The prompt, spelled out. *)
Lemma build_prompt_eq (document_text : Py.str) :
  build_prompt document_text =
  criteria_description ++ proposal_separator ++ strip document_text.
Proof.
  unfold build_prompt, fstring. simpl List.concat.
  rewrite app_nil_r. reflexivity.
Qed.

Lemma build_prompt_header (document_text : Py.str) :
  build_prompt document_text = prompt_header ++ strip document_text.
Proof.
  rewrite build_prompt_eq. unfold prompt_header. rewrite <- app_assoc. reflexivity.
Qed.

(** C6: for every input text, [build_prompt] gives the constant instruction
    block, then the literal separator, then the stripped text.  The block
    holds the six criteria and the constraints and, ignoring case, the word
    novelty; [build_prompt("")] still holds the whole block; and for every
    input the stripped text is the end of the prompt. *)
Theorem C6_build_prompt_layout (document_text : Py.str) :
  build_prompt document_text
    = criteria_description ++ proposal_separator ++ strip document_text
  /\ forallb (fun c => contains c criteria_description) six_criteria = true
  /\ forallb (fun c => contains c criteria_description) behavioral_constraints = true
  /\ contains (lit "novelty") (lower_ascii criteria_description) = true
  /\ contains criteria_description (build_prompt []) = true
  /\ build_prompt [] = criteria_description ++ proposal_separator
  /\ endswith (strip document_text) (build_prompt document_text) = true.
Proof.
  split; [apply build_prompt_eq|].
  split; [vm_compute; reflexivity|].
  split; [vm_compute; reflexivity|].
  split; [vm_compute; reflexivity|].
  split.
  { apply contains_startswith. rewrite build_prompt_eq. apply startswith_app. }
  split.
  { rewrite build_prompt_eq. change (strip []) with (@nil N).
    rewrite app_nil_r. reflexivity. }
  rewrite build_prompt_header. apply endswith_app.
Qed.

(** C7: [build_prompt] depends on its argument alone, so equal inputs give
    equal prompts; every prompt starts with the same header, and two prompts
    differ exactly where the stripped texts after the header differ. *)
Theorem C7_build_prompt_pure (text1 text2 : Py.str) :
  (text1 = text2 -> build_prompt text1 = build_prompt text2)
  /\ firstn (List.length prompt_header) (build_prompt text1) = prompt_header
  /\ firstn (List.length prompt_header) (build_prompt text2) = prompt_header
  /\ skipn (List.length prompt_header) (build_prompt text1) = strip text1
  /\ skipn (List.length prompt_header) (build_prompt text2) = strip text2
  /\ (build_prompt text1 = build_prompt text2 <-> strip text1 = strip text2).
Proof.
  rewrite !build_prompt_header.
  assert (Hf : forall t : Py.str,
             firstn (List.length prompt_header) (prompt_header ++ t) = prompt_header).
  { intros t. rewrite firstn_app, Nat.sub_diag, firstn_all. apply app_nil_r. }
  assert (Hs : forall t : Py.str,
             skipn (List.length prompt_header) (prompt_header ++ t) = t).
  { intros t. rewrite skipn_app, Nat.sub_diag, skipn_all. reflexivity. }
  split; [intros ->; reflexivity|].
  split; [apply Hf|]. split; [apply Hf|].
  split; [apply Hs|]. split; [apply Hs|].
  split; [apply app_inv_head | intros ->; reflexivity].
Qed.

Lemma C7_build_prompt_pure_witness :
  lit " Proposal about X " <> lit "Proposal about X"
  /\ build_prompt (lit " Proposal about X ") = build_prompt (lit "Proposal about X").
Proof.
  split; [discriminate|].
  exact (proj2 (proj2 (proj2 (proj2 (proj2 (proj2
           (C7_build_prompt_pure (lit " Proposal about X ")
                                 (lit "Proposal about X")))))))
           eq_refl).
Defined.

(** ** [extract_text] *)

Section ExtractionFacts.

Variable PdfReader : option PdfReader_t.
Variable Document : option Document_t.

(** Each block catches what is raised inside it. *)
Lemma pdf_block_returns (mime_type : Py.str) (w : world) :
  exists r w', pdf_block PdfReader mime_type w = (inr r, w').
Proof.
  unfold pdf_block.
  destruct (Py.eqb mime_type mime_pdf); [|eexists _, _; reflexivity].
  destruct PdfReader as [ctor|]; [|eexists _, _; reflexivity].
  unfold try_except, bind, construct.
  destruct (ctor (file_buffer w)) as [[e|reader] fb]; [eexists _, _; reflexivity|].
  destruct (pages_error reader); eexists _, _; reflexivity.
Qed.

Lemma docx_block_returns (mime_type : Py.str) (w : world) :
  exists r w', docx_block Document mime_type w = (inr r, w').
Proof.
  unfold docx_block.
  destruct (str_in mime_type _); [|eexists _, _; reflexivity].
  destruct Document as [ctor|]; [|eexists _, _; reflexivity].
  unfold try_except, bind, construct.
  destruct (ctor (file_buffer w)) as [[e|document] fb]; [eexists _, _; reflexivity|].
  destruct (collect_paragraphs (paragraphs document)); eexists _, _; reflexivity.
Qed.

Lemma plain_text_block_returns (w : world) :
  exists text w', plain_text_block w = (inr text, w').
Proof.
  unfold plain_text_block, try_except, bind, read.
  destruct (closed (file_buffer w)); eexists _, _; reflexivity.
Qed.

(** On an open buffer, at any position, [extract_text] returns a string. *)
Lemma extract_text_returns (mime_type : Py.str) (w : world) :
  closed (file_buffer w) = false ->
  exists text w', extract_text PdfReader Document mime_type w = (inr text, w').
Proof.
  intros Hopen. unfold extract_text, bind at 1, seek. rewrite Hopen.
  unfold bind at 1.
  destruct (pdf_block_returns mime_type
              (logged (CallSeek 0)
                 {| getvalue := getvalue (file_buffer w); tell := 0; closed := false |} w))
    as [r [w1 ->]].
  destruct r as [text|]; [eexists _, _; reflexivity|].
  unfold bind.
  destruct (docx_block_returns mime_type w1) as [r [w2 ->]].
  destruct r as [text|]; [eexists _, _; reflexivity|].
  apply plain_text_block_returns.
Qed.

(** A closed buffer is the one input on which [extract_text] raises: the
    first [seek] is outside every [try]. *)
Lemma extract_text_closed_raises (mime_type : Py.str) (w : world) :
  closed (file_buffer w) = true ->
  fst (extract_text PdfReader Document mime_type w) = inl closed_file.
Proof.
  intros Hc. unfold extract_text, bind at 1, seek. rewrite Hc. reflexivity.
Qed.

End ExtractionFacts.

(** C1: for every byte input and every media type, whatever the parsers are
    or do (present or not, failing or not), [extract_text] on the buffer made
    of the bytes returns a string and raises nothing.  The model is a total
    function, so the call ends. *)
Theorem C1_extract_returns_string
  (PdfReader : option PdfReader_t) (Document : option Document_t)
  (data : Py.bytes) (mime_type : Py.str) :
  exists text : Py.str,
    fst (extract PdfReader Document data mime_type) = inr text.
Proof.
  unfold extract.
  destruct (extract_text_returns PdfReader Document mime_type
              {| file_buffer := BytesIO_new data; calls := [] |} eq_refl)
    as [text [w' ->]].
  exists text. reflexivity.
Qed.

(** *** The three paths *)

Lemma mime_pdf_not_word : str_in mime_pdf [mime_docx; mime_msword] = false.
Proof. vm_compute. reflexivity. Qed.

Lemma mime_pdf_eqb : Py.eqb mime_pdf mime_pdf = true.
Proof. apply str_eqb_refl. Qed.

Section Paths.

Variable PdfReader : option PdfReader_t.
Variable Document : option Document_t.

(** No format-specific path applies: the fallback runs first, from
    position 0, on the whole content. *)
Lemma extract_plain (data : Py.bytes) (mime_type : Py.str) :
  str_in mime_type [mime_pdf; mime_docx; mime_msword] = false ->
  extract PdfReader Document data mime_type
  = (inr (decode_utf8_ignore data), [CallSeek 0; CallRead]).
Proof.
  intros H. unfold str_in in H. cbn [existsb] in H.
  apply orb_false_iff in H as [Hpdf Hword].
  unfold extract, extract_text, bind, seek, pdf_block. cbn [file_buffer closed BytesIO_new].
  rewrite Hpdf. unfold ret at 1, docx_block, str_in. cbn [existsb].
  rewrite Hword. unfold ret at 1, plain_text_block, try_except, bind, read.
  reflexivity.
Qed.

(** The PDF opens and its pages are iterated to the end: the stripped
    join of the page texts is returned at once. *)
Lemma extract_pdf_opened (ctor : PdfReader_t) (data : Py.bytes)
      (reader : PdfDocument) (fb' : BytesIO) :
  ctor (BytesIO_new data) = (inr reader, fb') ->
  pages_error reader = None ->
  extract (Some ctor) Document data mime_pdf
  = (inr (strip (join LF (collect_pages (pages reader) []))),
     [CallSeek 0; CallPdfReader]).
Proof.
  intros Hctor Herr.
  unfold extract, extract_text, bind, seek, pdf_block. cbn [file_buffer closed BytesIO_new].
  rewrite mime_pdf_eqb. unfold try_except, bind, construct.
  cbn [file_buffer logged]. change (mkBytesIO (getvalue (BytesIO_new data)) 0 false) with (BytesIO_new data).
  rewrite Hctor, Herr. reflexivity.
Qed.

(** The PDF attempt fails: the fallback reads from wherever the parser
    left the buffer (and gives the empty string if it closed it). *)
Lemma extract_pdf_failed (ctor : PdfReader_t) (data : Py.bytes)
      (r : exn + PdfDocument) (fb' : BytesIO) :
  ctor (BytesIO_new data) = (r, fb') ->
  pdf_failed r = true ->
  extract (Some ctor) Document data mime_pdf
  = (inr (if closed fb' then []
          else decode_utf8_ignore (skipn (tell fb') (getvalue fb'))),
     [CallSeek 0; CallPdfReader; CallRead]).
Proof.
  intros Hctor Hfail.
  unfold extract, extract_text, bind, seek, pdf_block. cbn [file_buffer closed BytesIO_new].
  rewrite mime_pdf_eqb. unfold try_except, bind, construct.
  cbn [file_buffer logged]. change (mkBytesIO (getvalue (BytesIO_new data)) 0 false) with (BytesIO_new data).
  rewrite Hctor.
  assert (Hword : docx_block Document mime_pdf = ret None).
  { unfold docx_block. rewrite mime_pdf_not_word. reflexivity. }
  destruct r as [e|reader]; simpl in Hfail.
  - unfold raise, ret. rewrite Hword. unfold ret, plain_text_block, try_except, bind, read.
    cbn [file_buffer logged]. destruct (closed fb'); reflexivity.
  - destruct (pages_error reader); [|discriminate].
    unfold raise, ret. rewrite Hword. unfold ret, plain_text_block, try_except, bind, read.
    cbn [file_buffer logged]. destruct (closed fb'); reflexivity.
Qed.

End Paths.

(** The page loop appends the texts of the pages, skipping those that
    raise. *)
Lemma collect_pages_texts (ps : list page) (pages_text : list Py.str) :
  collect_pages ps pages_text = pages_text ++ extracted_texts ps.
Proof.
  revert pages_text. induction ps as [|p ps IH]; intros acc; simpl.
  - rewrite app_nil_r. reflexivity.
  - destruct p as [e|t]; simpl.
    + apply IH.
    + rewrite IH, <- app_assoc. reflexivity.
Qed.

Lemma other_pages_split (l1 : list page) (p : page) (l2 : list page) :
  other_pages (List.length l1) (l1 ++ p :: l2) = l1 ++ l2.
Proof.
  induction l1 as [|a l1 IH]; [reflexivity|].
  unfold other_pages in *. simpl. f_equal. exact IH.
Qed.

(** A page that raises adds nothing: the texts are those of the other
    pages. *)
Lemma extracted_texts_skip (ps : list page) (k : nat) (e : exn) :
  nth_error ps k = Some (inl e) ->
  extracted_texts ps = extracted_texts (other_pages k ps).
Proof.
  intros Hk.
  destruct (nth_error_split ps k Hk) as [l1 [l2 [Hps Hlen]]].
  subst ps k. rewrite other_pages_split.
  unfold extracted_texts. rewrite !flat_map_app. reflexivity.
Qed.

(** Every page of [other_pages k ps] is a page of [ps] at an index other
    than [k]. *)
Lemma other_pages_nth (ps : list page) (k : nat) (p : page) :
  In p (other_pages k ps) ->
  exists j, j <> k /\ nth_error ps j = Some p.
Proof.
  unfold other_pages. intros H. apply in_app_or in H as [H|H];
    destruct (In_nth_error _ _ H) as [j Hj].
  - rewrite nth_error_firstn in Hj.
    destruct (j <? k) eqn:E; [|discriminate].
    apply Nat.ltb_lt in E. exists j. split; [lia | exact Hj].
  - rewrite nth_error_skipn in Hj. exists (S k + j). split; [lia | exact Hj].
Qed.

Lemma extracted_texts_all (ps : list page) :
  (forall p, In p ps -> page_raises p = false) ->
  extracted_texts ps = map page_text ps.
Proof.
  induction ps as [|p ps IH]; intros H; [reflexivity|].
  simpl. rewrite IH by (intros q Hq; apply H; right; exact Hq).
  specialize (H p (or_introl eq_refl)).
  destruct p as [e|t]; [discriminate H | reflexivity].
Qed.

Lemma join_spaces (parts : list Py.str) :
  forallb (forallb isspace) parts = true ->
  forallb isspace (join LF parts) = true.
Proof.
  induction parts as [|p rest IH]; [reflexivity|].
  intros H. cbn [forallb] in H. apply andb_true_iff in H as [Hp Hrest].
  destruct rest as [|q rest]; [exact Hp|].
  change (join LF (p :: q :: rest)) with (p ++ LF ++ join LF (q :: rest)).
  rewrite !forallb_app, Hp, (IH Hrest). reflexivity.
Qed.

(** The two format-specific blocks strip what they return. *)
Lemma pdf_block_trimmed (PdfReader : option PdfReader_t) (mime_type : Py.str)
      (w w' : world) (text : Py.str) :
  pdf_block PdfReader mime_type w = (inr (Some text), w') -> trimmed text = true.
Proof.
  unfold pdf_block.
  destruct (Py.eqb mime_type mime_pdf); [|discriminate].
  destruct PdfReader as [ctor|]; [|discriminate].
  unfold try_except, bind, construct.
  destruct (ctor (file_buffer w)) as [[e|reader] fb]; [discriminate|].
  destruct (pages_error reader); [discriminate|].
  intros H. injection H as <- _. apply trimmed_strip.
Qed.

Lemma docx_block_trimmed (Document : option Document_t) (mime_type : Py.str)
      (w w' : world) (text : Py.str) :
  docx_block Document mime_type w = (inr (Some text), w') -> trimmed text = true.
Proof.
  unfold docx_block.
  destruct (str_in mime_type _); [|discriminate].
  destruct Document as [ctor|]; [|discriminate].
  unfold try_except, bind, construct.
  destruct (ctor (file_buffer w)) as [[e|document] fb]; [discriminate|].
  destruct (collect_paragraphs (paragraphs document)); [discriminate|].
  intros H. injection H as <- _. apply trimmed_strip.
Qed.

(** ** The claims on [extract_text] *)

(** C2 (the code does otherwise): the fallback returns the decoded bytes as
    they are, without [strip]: a plain-text upload with spaces around it
    comes back untrimmed, and one made of whitespace alone comes back as that
    whitespace, not as the empty string. *)
Theorem C2_fallback_returns_untrimmed_text :
  fst (extract None None (blit "  hi  ") (lit "text/plain")) = inr (lit "  hi  ")
  /\ trimmed (lit "  hi  ") = false
  /\ fst (extract None None (blit "   ") (lit "text/plain")) = inr (lit "   ")
  /\ strip (lit "   ") = [].
Proof. vm_compute. repeat split; reflexivity. Qed.

(** C3 (the code does otherwise): [seek(0)] is called once, before the PDF
    attempt, and not again before the fallback [read()]: after a reader that
    stopped behind the header, the fallback decodes the bytes from there on,
    not the whole content. *)
Theorem C3_fallback_reads_from_parser_position :
  extract (Some header_reader) None (blit "%PDF-not a PDF at all") mime_pdf
  = (inr (lit "not a PDF at all"), [CallSeek 0; CallPdfReader; CallRead])
  /\ decode_utf8_ignore (blit "%PDF-not a PDF at all") = lit "%PDF-not a PDF at all".
Proof. vm_compute. split; reflexivity. Qed.

(** C4 (the code does otherwise): with a PDF reader that fails after moving
    to the end of the stream, [extract_text] returns the empty string
    although the bytes decode to a non-empty text. *)
Theorem C4_failed_pdf_fallback_is_partial :
  pdf_failed (fst (trailer_reader (BytesIO_new (blit "plain notes, not a PDF")))) = true
  /\ extract (Some trailer_reader) None (blit "plain notes, not a PDF") mime_pdf
     = (inr [], [CallSeek 0; CallPdfReader; CallRead])
  /\ decode_utf8_ignore (blit "plain notes, not a PDF") = lit "plain notes, not a PDF".
Proof. vm_compute. repeat split; reflexivity. Qed.

(** C5, as stated, fails: with a first page of text [" a"] and a second page
    that raises, the join of the other pages' texts is [" a"], and
    [extract_text] returns ["a"]. *)
Lemma C5_counterexample :
  nth_error two_pages 1 = Some (inl (Raised "KeyError" (lit "/Contents")))
  /\ join LF (extracted_texts (other_pages 1 two_pages)) = lit " a"
  /\ fst (extract (Some two_page_reader) None (blit "%PDF-1.4") mime_pdf)
     = inr (lit "a")
  /\ fst (extract (Some two_page_reader) None (blit "%PDF-1.4") mime_pdf)
     <> inr (join LF (extracted_texts (other_pages 1 two_pages))).
Proof.
  split; [reflexivity|]. split; [reflexivity|].
  split; [vm_compute; reflexivity|].
  vm_compute. discriminate.
Qed.

(** C5, amended: when the PDF opens, its pages are iterated to the end and
    the extraction of page [k] raises, [extract_text] returns the
    newline-join of the texts of the pages other than [k], in page order,
    stripped of leading and trailing whitespace; page [k] adds nothing and
    nothing is raised.  When no other page raises, those texts are one per
    page, the text of a page that gives [None] being empty. *)
Theorem C5_failed_page_is_skipped
  (ctor : PdfReader_t) (Document : option Document_t) (data : Py.bytes)
  (reader : PdfDocument) (fb' : BytesIO) (k : nat) (e : exn) :
  ctor (BytesIO_new data) = (inr reader, fb') ->
  pages_error reader = None ->
  nth_error (pages reader) k = Some (inl e) ->
  extract (Some ctor) Document data mime_pdf
  = (inr (strip (join LF (extracted_texts (other_pages k (pages reader))))),
     [CallSeek 0; CallPdfReader])
  /\ ((forall j p, j <> k -> nth_error (pages reader) j = Some p ->
                   page_raises p = false) ->
      extracted_texts (other_pages k (pages reader))
      = map page_text (other_pages k (pages reader))).
Proof.
  intros Hctor Herr Hk. split.
  - rewrite (extract_pdf_opened Document ctor data Hctor Herr).
    rewrite collect_pages_texts. erewrite extracted_texts_skip by exact Hk.
    reflexivity.
  - intros Hothers. apply extracted_texts_all. intros p Hp.
    apply other_pages_nth in Hp as [j [Hj Hnth]].
    exact (Hothers j p Hj Hnth).
Qed.

Lemma C5_failed_page_is_skipped_witness :
  nth_error (pages {| pages := two_pages; pages_error := None |}) 1
  = Some (inl (Raised "KeyError" (lit "/Contents")))
  /\ extract (Some two_page_reader) None (blit "%PDF-1.4") mime_pdf
     = (inr (lit "a"), [CallSeek 0; CallPdfReader]).
Proof.
  split; [reflexivity|].
  exact (proj1 (@C5_failed_page_is_skipped two_page_reader None (blit "%PDF-1.4")
                  _ _ 1 _ eq_refl eq_refl eq_refl)).
Defined.

(** C8: for every byte input and every media type other than the PDF type
    and the two word-processing types, [extract_text] goes straight to the
    fallback (one [seek(0)], one [read()], no parser called) and returns the
    permissive UTF-8 decoding of the bytes; the bytes of "Hello world" with
    "text/plain" give "Hello world". *)
Theorem C8_other_media_types_take_fallback :
  (forall (PdfReader : option PdfReader_t) (Document : option Document_t)
          (data : Py.bytes) (mime_type : Py.str),
      str_in mime_type [mime_pdf; mime_docx; mime_msword] = false ->
      extract PdfReader Document data mime_type
      = (inr (decode_utf8_ignore data), [CallSeek 0; CallRead]))
  /\ (forall (PdfReader : option PdfReader_t) (Document : option Document_t),
      extract PdfReader Document (blit "Hello world") (lit "text/plain")
      = (inr (lit "Hello world"), [CallSeek 0; CallRead])).
Proof.
  split.
  - intros PdfReader Document data mime_type H.
    apply extract_plain. exact H.
  - intros PdfReader Document.
    rewrite extract_plain by (vm_compute; reflexivity).
    vm_compute. reflexivity.
Qed.

Lemma C8_other_media_types_take_fallback_witness :
  str_in (lit "text/csv") [mime_pdf; mime_docx; mime_msword] = false
  /\ extract (Some header_reader) None (blit "name,amount") (lit "text/csv")
     = (inr (lit "name,amount"), [CallSeek 0; CallRead]).
Proof.
  split; [reflexivity|].
  exact (proj1 C8_other_media_types_take_fallback
               (Some header_reader) None (blit "name,amount") (lit "text/csv")
               eq_refl).
Defined.

Lemma extracted_texts_of_texts (texts : list Py.str) :
  extracted_texts (map (fun t => inr (Some t)) texts) = texts.
Proof.
  induction texts as [|t texts IH]; [reflexivity|].
  simpl. rewrite IH. reflexivity.
Qed.

(** C9: when the media type is the PDF type, the reader is available, and
    opening the document and iterating its pages succeed, [extract_text]
    returns at once the stripped newline-join of the page texts, in page
    order (each page that gives a text adds it, a page that gives [None]
    adds an empty text): when every page gives a text, that is the stripped
    join of exactly those texts.  The buffer itself is not read.  When the
    page texts hold only whitespace the result is the empty string, whatever
    the raw bytes decode to, and there are such inputs whose bytes decode to
    a non-empty text. *)
Theorem C9_opened_pdf_returns_without_fallback :
  (forall (ctor : PdfReader_t) (Document : option Document_t)
          (data : Py.bytes) (reader : PdfDocument) (fb' : BytesIO),
      ctor (BytesIO_new data) = (inr reader, fb') ->
      pages_error reader = None ->
      extract (Some ctor) Document data mime_pdf
      = (inr (strip (join LF (extracted_texts (pages reader)))),
         [CallSeek 0; CallPdfReader])
      /\ (forall texts : list Py.str,
             pages reader = map (fun t => inr (Some t)) texts ->
             fst (extract (Some ctor) Document data mime_pdf)
             = inr (strip (join LF texts)))
      /\ ~ In CallRead (snd (extract (Some ctor) Document data mime_pdf))
      /\ (forallb (forallb isspace) (extracted_texts (pages reader)) = true ->
          fst (extract (Some ctor) Document data mime_pdf) = inr []))
  /\ (exists (ctor : PdfReader_t) (data : Py.bytes),
         fst (extract (Some ctor) None data mime_pdf) = inr []
         /\ decode_utf8_ignore data <> []).
Proof.
  split.
  - intros ctor Document data reader fb' Hctor Herr.
    rewrite (extract_pdf_opened Document ctor data Hctor Herr).
    rewrite collect_pages_texts. cbn [app fst snd].
    split; [reflexivity|]. split; [|split].
    + intros texts Hpages. rewrite Hpages, extracted_texts_of_texts.
      reflexivity.
    + intros [H|[H|[]]]; discriminate H.
    + intros Hws. f_equal. apply strip_spaces, join_spaces, Hws.
  - exists scanned_reader, (blit "%PDF-1.4 scanned pages").
    split; [vm_compute; reflexivity | vm_compute; discriminate].
Qed.

Lemma C9_opened_pdf_returns_without_fallback_witness :
  (extract (Some text_page_reader) None (blit "%PDF-1.4 binary") mime_pdf
   = (inr (lit "Hello" ++ LF ++ LF ++ lit "World"), [CallSeek 0; CallPdfReader])
   /\ decode_utf8_ignore (blit "%PDF-1.4 binary") = lit "%PDF-1.4 binary")
  /\ (extract (Some scanned_reader) None (blit "%PDF-1.4 scanned pages") mime_pdf
      = (inr [], [CallSeek 0; CallPdfReader])
      /\ decode_utf8_ignore (blit "%PDF-1.4 scanned pages")
         = lit "%PDF-1.4 scanned pages").
Proof.
  split; (split; [|reflexivity]).
  - exact (proj1 (proj1 C9_opened_pdf_returns_without_fallback
                        text_page_reader None (blit "%PDF-1.4 binary")
                        _ _ eq_refl eq_refl)).
  - exact (proj1 (proj1 C9_opened_pdf_returns_without_fallback
                        scanned_reader None (blit "%PDF-1.4 scanned pages")
                        _ _ eq_refl eq_refl)).
Defined.

(** ** [evaluate_proposal] *)

(** C10: for every document text, when the [openai] module is missing or
    the key is the empty string, [evaluate_proposal] returns [None], and all
    it does is show one error message: it neither calls [build_prompt] nor
    sends a request (nor sets the key). *)
Theorem C10_no_client_or_no_key_returns_none
  (openai : option openai_t) (document_text api_key : Py.str)
  (log : list action) :
  openai = None \/ api_key = [] ->
  exists msg : Py.str,
    evaluate_proposal openai document_text api_key log
    = (inr None, log ++ [StError msg]).
Proof.
  intros H. unfold evaluate_proposal.
  destruct openai as [client|].
  - destruct H as [H| ->]; [discriminate|].
    eexists. reflexivity.
  - eexists. reflexivity.
Qed.

Lemma C10_no_client_or_no_key_returns_none_witness :
  (exists msg,
      evaluate_proposal None (lit "Proposal about X") (lit "sk-test") []
      = (inr None, [StError msg]))
  /\ (exists msg,
      evaluate_proposal (Some echo_client) (lit "Proposal about X") [] []
      = (inr None, [StError msg])).
Proof.
  split.
  - exact (@C10_no_client_or_no_key_returns_none
             None (lit "Proposal about X") (lit "sk-test") []
             (or_introl eq_refl)).
  - exact (@C10_no_client_or_no_key_returns_none
             (Some echo_client) (lit "Proposal about X") [] []
             (or_intror eq_refl)).
Defined.

(** With a client and a key, the prompt is built and sent: the guard of
    C10 is what keeps the request from being made. *)
Example evaluate_proposal_sends_prompt :
  evaluate_proposal (Some echo_client) (lit " Proposal about X ") (lit "sk-test") []
  = (inr (Some (build_prompt (lit "Proposal about X"))),
     [SetApiKey (lit "sk-test");
      BuildPrompt (lit " Proposal about X ");
      ChatCompletionCreate (lit "gpt-5-mini-2025-08-07")
                           (build_prompt (lit "Proposal about X")) 1024]).
Proof. vm_compute. reflexivity. Qed.

(** * Further properties *)

(** ** More on [extract_text] *)

Lemma word_mime_not_pdf (mime_type : Py.str) :
  str_in mime_type [mime_docx; mime_msword] = true ->
  Py.eqb mime_type mime_pdf = false.
Proof.
  unfold str_in. cbn [existsb]. rewrite orb_false_r.
  intros H. apply orb_true_iff in H as [H|H]; apply str_eqb_eq in H;
    subst mime_type; vm_compute; reflexivity.
Qed.

Lemma collect_paragraphs_texts (texts : list Py.str) :
  collect_paragraphs (map inr texts) = inr texts.
Proof.
  induction texts as [|t texts IH]; [reflexivity|].
  simpl. rewrite IH. reflexivity.
Qed.

Lemma collect_paragraphs_fails (ps : list (exn + Py.str)) :
  existsb (fun p => match p with inl _ => true | inr _ => false end) ps = true ->
  exists e, collect_paragraphs ps = inl e.
Proof.
  induction ps as [|[e|t] ps IH]; simpl; intros H.
  - discriminate.
  - exists e. reflexivity.
  - destruct (IH H) as [e' ->]. exists e'. reflexivity.
Qed.

Section MorePaths.

Variable PdfReader : option PdfReader_t.
Variable Document : option Document_t.

(** The run of [extract_text] on a fresh buffer starts with [seek(0)] and
    goes on with the PDF block. *)
Lemma extract_unfold (data : Py.bytes) (mime_type : Py.str) :
  extract PdfReader Document data mime_type
  = let (r, w) :=
        (r <- pdf_block PdfReader mime_type ;;
         match r with
         | Some text => ret text
         | None =>
           r <- docx_block Document mime_type ;;
           match r with
           | Some text => ret text
           | None => plain_text_block
           end
         end)
          {| file_buffer := BytesIO_new data; calls := [CallSeek 0] |} in
    (r, calls w).
Proof. reflexivity. Qed.

End MorePaths.

Lemma docx_run_opened (PdfReader : option PdfReader_t) (ctor : Document_t)
      (data : Py.bytes) (mime_type : Py.str) (document : DocxDocument)
      (fb' : BytesIO) (texts : list Py.str) :
  str_in mime_type [mime_docx; mime_msword] = true ->
  ctor (BytesIO_new data) = (inr document, fb') ->
  collect_paragraphs (paragraphs document) = inr texts ->
  extract PdfReader (Some ctor) data mime_type
  = (inr (strip (join LF texts)), [CallSeek 0; CallDocument]).
Proof.
  intros Hword Hctor Hps. rewrite extract_unfold.
  unfold bind at 1, pdf_block. rewrite (word_mime_not_pdf _ Hword).
  unfold ret at 1, bind at 1, docx_block. rewrite Hword.
  unfold try_except, bind, construct. cbn [file_buffer].
  rewrite Hctor, Hps. reflexivity.
Qed.

Lemma docx_run_failed (PdfReader : option PdfReader_t) (ctor : Document_t)
      (data : Py.bytes) (mime_type : Py.str) (r : exn + DocxDocument)
      (fb' : BytesIO) :
  str_in mime_type [mime_docx; mime_msword] = true ->
  ctor (BytesIO_new data) = (r, fb') ->
  docx_failed r = true ->
  extract PdfReader (Some ctor) data mime_type
  = (inr (if closed fb' then []
          else decode_utf8_ignore (skipn (tell fb') (getvalue fb'))),
     [CallSeek 0; CallDocument; CallRead]).
Proof.
  intros Hword Hctor Hfail. rewrite extract_unfold.
  unfold bind at 1, pdf_block. rewrite (word_mime_not_pdf _ Hword).
  unfold ret at 1, bind at 1, docx_block. rewrite Hword.
  unfold try_except, bind, construct. cbn [file_buffer].
  rewrite Hctor.
  destruct r as [e|document]; simpl in Hfail.
  - unfold ret, plain_text_block, try_except, bind, read.
    cbn [file_buffer logged]. destruct (closed fb'); reflexivity.
  - destruct (collect_paragraphs_fails _ Hfail) as [e ->].
    unfold of_result, raise, ret, plain_text_block, try_except, bind, read.
    cbn [file_buffer logged]. destruct (closed fb'); reflexivity.
Qed.

(** X1: with a word-processing media type and [Document] available, when
    the document opens and every paragraph gives its text, [extract_text]
    returns the stripped newline-join of the paragraph texts, in document
    order, after one [seek(0)] and the [Document] call, without reading the
    buffer itself. *)
Theorem X1_docx_opened_returns_paragraphs
  (PdfReader : option PdfReader_t) (ctor : Document_t) (data : Py.bytes)
  (mime_type : Py.str) (document : DocxDocument) (fb' : BytesIO)
  (texts : list Py.str) :
  str_in mime_type [mime_docx; mime_msword] = true ->
  ctor (BytesIO_new data) = (inr document, fb') ->
  paragraphs document = map inr texts ->
  extract PdfReader (Some ctor) data mime_type
  = (inr (strip (join LF texts)), [CallSeek 0; CallDocument]).
Proof.
  intros Hword Hctor Hps.
  eapply docx_run_opened; [exact Hword | exact Hctor |].
  rewrite Hps. apply collect_paragraphs_texts.
Qed.

Lemma X1_docx_opened_returns_paragraphs_witness :
  extract (Some header_reader) (Some two_paragraph_reader)
          (blit "PK archive") mime_docx
  = (inr (lit "Summary" ++ LF ++ lit "Budget"), [CallSeek 0; CallDocument]).
Proof.
  exact (@X1_docx_opened_returns_paragraphs
           (Some header_reader) two_paragraph_reader (blit "PK archive")
           mime_docx _ _ [lit " Summary"; lit "Budget "]
           eq_refl eq_refl eq_refl).
Defined.

(** X2: a DOCX attempt that fails, because [Document] raises or because
    the text of any one paragraph raises, gives up the whole document: no
    paragraph text is returned, and the result is the fallback decoding of
    the bytes from the position where the parser left the buffer (the empty
    string if the parser closed it). *)
Theorem X2_docx_failure_abandons_document
  (PdfReader : option PdfReader_t) (ctor : Document_t) (data : Py.bytes)
  (mime_type : Py.str) (r : exn + DocxDocument) (fb' : BytesIO) :
  str_in mime_type [mime_docx; mime_msword] = true ->
  ctor (BytesIO_new data) = (r, fb') ->
  docx_failed r = true ->
  extract PdfReader (Some ctor) data mime_type
  = (inr (if closed fb' then []
          else decode_utf8_ignore (skipn (tell fb') (getvalue fb'))),
     [CallSeek 0; CallDocument; CallRead]).
Proof.
  intros Hword Hctor Hfail.
  eapply docx_run_failed; [exact Hword | exact Hctor | exact Hfail].
Qed.

Lemma X2_docx_failure_abandons_document_witness :
  extract None (Some broken_paragraph_reader) (blit "PK34notes") mime_msword
  = (inr (lit "notes"), [CallSeek 0; CallDocument; CallRead]).
Proof.
  exact (@X2_docx_failure_abandons_document
           None broken_paragraph_reader (blit "PK34notes") mime_msword _ _
           eq_refl eq_refl eq_refl).
Defined.

(** X3: when the parser for the declared type is missing ([PdfReader] is
    [None] for a PDF, [Document] is [None] for a word-processing type),
    [extract_text] goes straight to the fallback and decodes the whole
    content. *)
Theorem X3_missing_parser_takes_fallback :
  (forall (Document : option Document_t) (data : Py.bytes),
      extract None Document data mime_pdf
      = (inr (decode_utf8_ignore data), [CallSeek 0; CallRead]))
  /\ (forall (PdfReader : option PdfReader_t) (data : Py.bytes)
             (mime_type : Py.str),
         str_in mime_type [mime_docx; mime_msword] = true ->
         extract PdfReader None data mime_type
         = (inr (decode_utf8_ignore data), [CallSeek 0; CallRead])).
Proof.
  split.
  - intros Document data. rewrite extract_unfold.
    unfold bind at 1, pdf_block. rewrite mime_pdf_eqb.
    unfold ret at 1, bind at 1, docx_block. rewrite mime_pdf_not_word.
    reflexivity.
  - intros PdfReader data mime_type Hword. rewrite extract_unfold.
    unfold bind at 1, pdf_block. rewrite (word_mime_not_pdf _ Hword).
    unfold ret at 1, bind at 1, docx_block. rewrite Hword.
    reflexivity.
Qed.

Lemma X3_missing_parser_takes_fallback_witness :
  extract (Some header_reader) None (blit "legacy memo") mime_msword
  = (inr (lit "legacy memo"), [CallSeek 0; CallRead]).
Proof.
  exact (proj2 X3_missing_parser_takes_fallback
               (Some header_reader) (blit "legacy memo") mime_msword eq_refl).
Defined.

(** X4: the [seek(0)] at the start makes the result independent of where
    the buffer stood: on an open buffer at any position, with a media type
    that selects no parser, [extract_text] returns the decoding of the whole
    content and leaves the position at the end. *)
Theorem X4_initial_position_is_reset
  (PdfReader : option PdfReader_t) (Document : option Document_t)
  (mime_type : Py.str) (w : world) :
  closed (file_buffer w) = false ->
  str_in mime_type [mime_pdf; mime_docx; mime_msword] = false ->
  extract_text PdfReader Document mime_type w
  = (inr (decode_utf8_ignore (getvalue (file_buffer w))),
     {| file_buffer :=
          {| getvalue := getvalue (file_buffer w);
             tell := List.length (getvalue (file_buffer w));
             closed := false |};
        calls := calls w ++ [CallSeek 0; CallRead] |}).
Proof.
  intros Hopen H. unfold str_in in H. cbn [existsb] in H.
  apply orb_false_iff in H as [Hpdf Hword].
  unfold extract_text, bind at 1, seek. rewrite Hopen.
  unfold bind at 1, pdf_block. rewrite Hpdf.
  unfold ret at 1, bind at 1, docx_block, str_in. cbn [existsb].
  rewrite Hword.
  unfold ret at 1, plain_text_block, try_except, bind, read, logged.
  cbn [file_buffer closed tell getvalue calls skipn].
  rewrite <- app_assoc. reflexivity.
Qed.

Lemma X4_initial_position_is_reset_witness :
  fst (extract_text None None (lit "text/plain")
         {| file_buffer := {| getvalue := blit "already read";
                              tell := 8; closed := false |};
            calls := [] |})
  = inr (lit "already read").
Proof.
  exact (f_equal fst
           (@X4_initial_position_is_reset None None (lit "text/plain")
              {| file_buffer := {| getvalue := blit "already read";
                                   tell := 8; closed := false |};
                 calls := [] |}
              eq_refl eq_refl)).
Defined.

Lemma collect_paragraphs_succeeds (ps : list (exn + Py.str)) :
  existsb (fun p => match p with inl _ => true | inr _ => false end) ps = false ->
  exists texts, collect_paragraphs ps = inr texts.
Proof.
  induction ps as [|[e|t] ps IH]; simpl; intros H.
  - exists []. reflexivity.
  - discriminate.
  - destruct (IH H) as [texts ->]. exists (t :: texts). reflexivity.
Qed.

(** X5: whatever the parsers do, one run of [extract_text] on a fresh
    buffer makes one of five call sequences, each tied to what happened.  It
    seeks once, at the start.  When no parser is selected (the media type
    names none, or the one it names is missing) it then reads the buffer.
    For the PDF type with [PdfReader] available it calls [PdfReader] and no
    other parser, and reads the buffer after it exactly when the attempt
    failed; for a word-processing type with [Document] available it calls
    [Document] and no other parser, and reads the buffer after it exactly
    when the attempt failed.  So the buffer is read at most once, last, and
    never after a parser succeeded. *)
Theorem X5_call_sequences
  (PdfReader : option PdfReader_t) (Document : option Document_t)
  (data : Py.bytes) (mime_type : Py.str) :
  let cs := snd (extract PdfReader Document data mime_type) in
  ((mime_type = mime_pdf -> PdfReader = None)
   /\ (str_in mime_type [mime_docx; mime_msword] = true -> Document = None)
   /\ cs = [CallSeek 0; CallRead])
  \/ (exists ctor : PdfReader_t,
         mime_type = mime_pdf /\ PdfReader = Some ctor
         /\ ((pdf_failed (fst (ctor (BytesIO_new data))) = false
              /\ cs = [CallSeek 0; CallPdfReader])
             \/ (pdf_failed (fst (ctor (BytesIO_new data))) = true
                 /\ cs = [CallSeek 0; CallPdfReader; CallRead])))
  \/ (exists ctor : Document_t,
         str_in mime_type [mime_docx; mime_msword] = true
         /\ Document = Some ctor
         /\ ((docx_failed (fst (ctor (BytesIO_new data))) = false
              /\ cs = [CallSeek 0; CallDocument])
             \/ (docx_failed (fst (ctor (BytesIO_new data))) = true
                 /\ cs = [CallSeek 0; CallDocument; CallRead]))).
Proof.
  intros cs. subst cs.
  destruct (extract PdfReader Document data mime_type) as [r cs] eqn:E.
  cbn [snd]. rewrite extract_unfold in E.
  unfold bind at 1, pdf_block in E.
  destruct (Py.eqb mime_type mime_pdf) eqn:Epdf.
  - apply str_eqb_eq in Epdf. subst mime_type.
    assert (Hword : docx_block Document mime_pdf = ret None).
    { unfold docx_block. rewrite mime_pdf_not_word. reflexivity. }
    destruct PdfReader as [ctor|].
    + right. left. exists ctor. split; [reflexivity|]. split; [reflexivity|].
      unfold try_except, bind, construct in E. cbn [file_buffer] in E.
      destruct (ctor (BytesIO_new data)) as [[e|reader] fb]; cbn [fst pdf_failed].
      * right. split; [reflexivity|]. rewrite Hword in E.
        unfold ret, plain_text_block, try_except, bind, read in E.
        cbn [file_buffer logged] in E.
        destruct (closed fb); injection E as _ <-; reflexivity.
      * destruct (pages_error reader).
        -- right. split; [reflexivity|]. rewrite Hword in E.
           unfold raise, ret, plain_text_block, try_except, bind, read in E.
           cbn [file_buffer logged] in E.
           destruct (closed fb); injection E as _ <-; reflexivity.
        -- left. split; [reflexivity|]. injection E as _ <-. reflexivity.
    + left. split; [reflexivity|].
      split; [rewrite mime_pdf_not_word; discriminate|].
      unfold ret at 1, bind in E. rewrite Hword in E.
      injection E as _ <-. reflexivity.
  - assert (Hnot : mime_type = mime_pdf -> PdfReader = None).
    { intros ->. rewrite mime_pdf_eqb in Epdf. discriminate Epdf. }
    unfold ret at 1, bind at 1, docx_block in E.
    destruct (str_in mime_type [mime_docx; mime_msword]) eqn:Eword.
    + destruct Document as [ctor|].
      * right. right. exists ctor. split; [reflexivity|]. split; [reflexivity|].
        unfold try_except, bind, construct in E. cbn [file_buffer] in E.
        destruct (ctor (BytesIO_new data)) as [[e|document] fb];
          cbn [fst docx_failed].
        -- right. split; [reflexivity|].
           unfold ret, plain_text_block, try_except, bind, read in E.
           cbn [file_buffer logged] in E.
           destruct (closed fb); injection E as _ <-; reflexivity.
        -- destruct (existsb _ (paragraphs document)) eqn:Eps.
           ++ right. split; [reflexivity|].
              destruct (collect_paragraphs_fails _ Eps) as [e Hps].
              rewrite Hps in E.
              unfold of_result, raise, ret, plain_text_block, try_except, bind, read in E.
              cbn [file_buffer logged] in E.
              destruct (closed fb); injection E as _ <-; reflexivity.
           ++ left. split; [reflexivity|].
              destruct (collect_paragraphs_succeeds _ Eps) as [texts Hps].
              rewrite Hps in E. injection E as _ <-. reflexivity.
      * left. split; [exact Hnot|]. split; [reflexivity|].
        injection E as _ <-. reflexivity.
    + left. split; [exact Hnot|]. split; [discriminate|].
      destruct Document; injection E as _ <-; reflexivity.
Qed.

(** X6: a PDF attempt that fails, because [PdfReader] raises or because
    iterating [reader.pages] raises after some pages were read, returns none
    of the page texts: the result is the fallback decoding of the bytes from
    the position where the parser left the buffer (the empty string if the
    parser closed it). *)
Theorem X6_pdf_failure_discards_pages
  (ctor : PdfReader_t) (Document : option Document_t) (data : Py.bytes)
  (r : exn + PdfDocument) (fb' : BytesIO) :
  ctor (BytesIO_new data) = (r, fb') ->
  pdf_failed r = true ->
  extract (Some ctor) Document data mime_pdf
  = (inr (if closed fb' then []
          else decode_utf8_ignore (skipn (tell fb') (getvalue fb'))),
     [CallSeek 0; CallPdfReader; CallRead]).
Proof.
  intros Hctor Hfail.
  eapply extract_pdf_failed; [exact Hctor | exact Hfail].
Qed.

Lemma X6_pdf_failure_discards_pages_witness :
  extract (Some broken_tree_reader) None (blit "%PDF-1.7 trailer lost") mime_pdf
  = (inr (lit "trailer lost"), [CallSeek 0; CallPdfReader; CallRead]).
Proof.
  exact (@X6_pdf_failure_discards_pages
           broken_tree_reader None (blit "%PDF-1.7 trailer lost") _ _
           eq_refl eq_refl).
Defined.

Lemma plain_text_block_reads (w : world) :
  In CallRead (calls (snd (plain_text_block w))).
Proof.
  unfold plain_text_block, try_except, bind, read.
  destruct (closed (file_buffer w)); simpl; apply in_or_app; right; left;
    reflexivity.
Qed.

(** X7: a text that [extract_text] returns without having read the buffer
    itself, that is, a text that comes from a parser, has no whitespace at
    either end. *)
Theorem X7_parser_text_is_trimmed
  (PdfReader : option PdfReader_t) (Document : option Document_t)
  (data : Py.bytes) (mime_type text : Py.str) (cs : list call) :
  extract PdfReader Document data mime_type = (inr text, cs) ->
  ~ In CallRead cs ->
  trimmed text = true.
Proof.
  intros H Hread. rewrite extract_unfold in H. unfold bind at 1 in H.
  destruct (pdf_block PdfReader mime_type _) as [[e|[t|]] w1] eqn:Epdf.
  - discriminate H.
  - injection H as <- _. eapply pdf_block_trimmed. exact Epdf.
  - unfold bind in H.
    destruct (docx_block Document mime_type w1) as [[e|[t|]] w2] eqn:Edocx.
    + discriminate H.
    + injection H as <- _. eapply docx_block_trimmed. exact Edocx.
    + exfalso. apply Hread.
      pose proof (plain_text_block_reads w2) as Hin.
      destruct (plain_text_block w2) as [r w3]. injection H as _ <-.
      exact Hin.
Qed.

Lemma X7_parser_text_is_trimmed_witness :
  trimmed (lit "Summary" ++ LF ++ lit "Budget") = true.
Proof.
  refine (@X7_parser_text_is_trimmed
            None (Some two_paragraph_reader) (blit "PK archive") mime_docx
            _ [CallSeek 0; CallDocument] eq_refl _).
  intros [H|[H|[]]]; discriminate H.
Defined.

Lemma decode_ascii (data : Py.bytes) :
  forallb is_ascii data = true ->
  decode_utf8_ignore data = map Byte.to_N data.
Proof.
  induction data as [|b data IH]; [reflexivity|].
  cbn [forallb]. intros H. apply andb_true_iff in H as [Hb Hdata].
  unfold is_ascii in Hb. cbn [decode_utf8_ignore map].
  rewrite Hb, (IH Hdata). reflexivity.
Qed.

(** X8: a plain-text upload made of ASCII bytes comes back character for
    character: for a media type that selects no parser, the result is the
    sequence of the byte values, nothing dropped and nothing trimmed. *)
Theorem X8_ascii_plain_text_is_kept
  (PdfReader : option PdfReader_t) (Document : option Document_t)
  (data : Py.bytes) (mime_type : Py.str) :
  str_in mime_type [mime_pdf; mime_docx; mime_msword] = false ->
  forallb is_ascii data = true ->
  fst (extract PdfReader Document data mime_type) = inr (map Byte.to_N data).
Proof.
  intros Hmime Hascii.
  rewrite (extract_plain PdfReader Document data mime_type Hmime).
  cbn [fst]. rewrite (decode_ascii data Hascii). reflexivity.
Qed.

Lemma X8_ascii_plain_text_is_kept_witness :
  fst (extract None None (blit " a,b ") (lit "text/csv")) = inr (lit " a,b ").
Proof.
  exact (@X8_ascii_plain_text_is_kept None None (blit " a,b ") (lit "text/csv")
           eq_refl eq_refl).
Defined.

Lemma decode_length_fuel (n : nat) :
  forall b : Py.bytes,
    List.length b <= n ->
    List.length (decode_utf8_ignore b) <= List.length b.
Proof.
  induction n as [|n IH]; intros b Hn.
  - destruct b; [simpl; lia | simpl in Hn; lia].
  - destruct b as [|b0 r1]; [simpl; lia|].
    cbn [decode_utf8_ignore].
    repeat match goal with
           | |- context [if ?c then _ else _] => destruct c
           | |- context [match ?l with nil => _ | cons _ _ => _ end] => destruct l
           end;
      cbn [List.length] in *;
      repeat match goal with
             | |- context [decode_utf8_ignore ?x] =>
               lazymatch goal with
               | _ : List.length (decode_utf8_ignore x) <= _ |- _ => fail
               | _ => assert (List.length (decode_utf8_ignore x) <= List.length x)
                     by (apply IH; cbn [List.length] in *; lia)
               end
             end;
      cbn [List.length] in *; lia.
Qed.

Lemma decode_length (b : Py.bytes) :
  List.length (decode_utf8_ignore b) <= List.length b.
Proof. apply decode_length_fuel with (n := List.length b). lia. Qed.

(** X9: the permissive decoding never yields more characters than there
    are bytes: for a media type that selects no parser, the text returned is
    at most as long as the upload. *)
Theorem X9_plain_text_no_longer_than_upload
  (PdfReader : option PdfReader_t) (Document : option Document_t)
  (data : Py.bytes) (mime_type text : Py.str) :
  str_in mime_type [mime_pdf; mime_docx; mime_msword] = false ->
  fst (extract PdfReader Document data mime_type) = inr text ->
  List.length text <= List.length data.
Proof.
  intros Hmime H.
  rewrite (extract_plain PdfReader Document data mime_type Hmime) in H.
  injection H as <-. apply decode_length.
Qed.

Lemma X9_plain_text_no_longer_than_upload_witness :
  List.length (decode_utf8_ignore (bytes_of [72; 226; 130; 172; 255]%N)) <= 5.
Proof.
  exact (@X9_plain_text_no_longer_than_upload
           None None (bytes_of [72; 226; 130; 172; 255]%N) (lit "text/plain") _
           eq_refl eq_refl).
Defined.

(** ** More on [build_prompt] *)

Lemma lstrip_app_spaces (ws s : Py.str) :
  forallb isspace ws = true -> lstrip (ws ++ s) = lstrip s.
Proof.
  induction ws as [|c ws IH]; [reflexivity|].
  cbn [forallb]. intros H. apply andb_true_iff in H as [Hc Hws].
  simpl. rewrite Hc. exact (IH Hws).
Qed.

Lemma forallb_rev {A} (f : A -> bool) (l : list A) :
  forallb f l = true -> forallb f (rev l) = true.
Proof.
  rewrite !forallb_forall. intros H x Hx. apply H, in_rev. exact Hx.
Qed.

Lemma rstrip_app_spaces (s ws : Py.str) :
  forallb isspace ws = true -> rstrip (s ++ ws) = rstrip s.
Proof.
  intros H. unfold rstrip. rewrite rev_app_distr.
  rewrite (lstrip_app_spaces _ (rev s) (forallb_rev _ _ H)). reflexivity.
Qed.

Lemma lstrip_before_spaces (s ws : Py.str) :
  forallb isspace ws = true ->
  lstrip (s ++ ws) = lstrip s ++ ws
  \/ (lstrip (s ++ ws) = [] /\ lstrip s = []).
Proof.
  intros H. induction s as [|c s IH].
  - right. split; [apply lstrip_spaces; exact H | reflexivity].
  - simpl. destruct (isspace c); [exact IH | left; reflexivity].
Qed.

Lemma strip_app_spaces (ws1 s ws2 : Py.str) :
  forallb isspace ws1 = true ->
  forallb isspace ws2 = true ->
  strip (ws1 ++ s ++ ws2) = strip s.
Proof.
  intros H1 H2. unfold strip. rewrite (lstrip_app_spaces _ _ H1).
  destruct (lstrip_before_spaces s _ H2) as [-> | [-> ->]].
  - apply rstrip_app_spaces. exact H2.
  - reflexivity.
Qed.

Lemma lstrip_length (s : Py.str) : List.length (lstrip s) <= List.length s.
Proof.
  destruct (lstrip_split s) as [p [Hs _]].
  rewrite Hs at 2. rewrite length_app. lia.
Qed.

Lemma strip_length (s : Py.str) : List.length (strip s) <= List.length s.
Proof.
  unfold strip, rstrip. rewrite length_rev.
  etransitivity; [apply lstrip_length|].
  rewrite length_rev. apply lstrip_length.
Qed.

(** X10: whitespace around the document never changes the prompt: adding
    whitespace characters in front of the text and after it gives the same
    prompt. *)
Theorem X10_surrounding_whitespace_is_ignored (ws1 text ws2 : Py.str) :
  forallb isspace ws1 = true ->
  forallb isspace ws2 = true ->
  build_prompt (ws1 ++ text ++ ws2) = build_prompt text.
Proof.
  intros H1 H2. rewrite !build_prompt_eq.
  rewrite (strip_app_spaces _ text _ H1 H2). reflexivity.
Qed.

Lemma X10_surrounding_whitespace_is_ignored_witness :
  build_prompt (LF ++ lit "Proposal about X" ++ lit "  ")
  = build_prompt (lit "Proposal about X").
Proof.
  exact (@X10_surrounding_whitespace_is_ignored
           LF (lit "Proposal about X") (lit "  ") eq_refl eq_refl).
Defined.

(** X11: the prompt is the 1389 code points of the instructions and the
    separator plus the stripped document: it is never shorter than 1389 and
    never longer than the document plus 1389. *)
Theorem X11_prompt_length (document_text : Py.str) :
  List.length (build_prompt document_text)
  = 1389 + List.length (strip document_text)
  /\ 1389 <= List.length (build_prompt document_text)
  /\ List.length (build_prompt document_text)
     <= 1389 + List.length document_text.
Proof.
  assert (H : List.length (build_prompt document_text)
              = 1389 + List.length (strip document_text)).
  { rewrite build_prompt_header, length_app.
    replace (List.length prompt_header) with 1389 by (vm_compute; reflexivity).
    reflexivity. }
  pose proof (strip_length document_text).
  rewrite H. repeat split; lia.
Qed.

(** ** More on [evaluate_proposal] *)

(** With a client and a non-empty key the request is made; what follows
    depends on the endpoint. *)
Lemma evaluate_proposal_request (client : openai_t)
      (document_text api_key : Py.str) (log : list action) :
  falsy api_key = false ->
  evaluate_proposal (Some client) document_text api_key log
  = let sent := [SetApiKey api_key; BuildPrompt document_text;
                 ChatCompletionCreate chat_model (build_prompt document_text) 1024] in
    match client api_key chat_model (build_prompt document_text) 1024%N with
    | inr content => (inr (Some (strip content)), log ++ sent)
    | inl exc =>
      (inr None,
       log ++ sent
           ++ [StError (lit "Error communicating with OpenAI API: " ++ exn_str exc)])
    end.
Proof.
  intros Hkey. unfold evaluate_proposal. rewrite Hkey.
  unfold try_except, bind, act, st_error, act, ret, chat_model.
  destruct (client api_key _ _ _) as [exc|content]; cbn zeta.
  - unfold fstring. cbn [map List.concat]. rewrite app_nil_r.
    rewrite <- !app_assoc. reflexivity.
  - rewrite <- !app_assoc. reflexivity.
Qed.

(** X12: [evaluate_proposal] never raises, whatever the endpoint does, and
    never fails silently: it returns either an answer, which has no
    whitespace at either end, or [None] after showing an error message; the
    earlier log is kept. *)
Theorem X12_evaluate_proposal_answers_or_reports
  (openai : option openai_t) (document_text api_key : Py.str)
  (log : list action) :
  exists (r : option Py.str) (acts : list action),
    evaluate_proposal openai document_text api_key log = (inr r, log ++ acts)
    /\ match r with
       | Some answer => trimmed answer = true
       | None => exists msg, In (StError msg) acts
       end.
Proof.
  destruct openai as [client|].
  - destruct (falsy api_key) eqn:Hkey.
    + exists None. eexists. unfold evaluate_proposal. rewrite Hkey.
      split; [reflexivity|]. eexists. left. reflexivity.
    + rewrite evaluate_proposal_request by exact Hkey.
      cbn zeta. destruct (client api_key _ _ _) as [exc|content].
      * exists None. eexists. split; [reflexivity|].
        eexists. apply in_or_app. right. left. reflexivity.
      * exists (Some (strip content)). eexists. split; [reflexivity|].
        apply trimmed_strip.
  - exists None. eexists. split; [reflexivity|]. eexists. left. reflexivity.
Qed.

(** X13: with the module available and a non-empty key, when the endpoint
    answers, [evaluate_proposal] returns the answer stripped, after setting
    the key, building the prompt from the document and sending one request
    for the model [gpt-5-mini-2025-08-07] with [max_tokens=1024] whose
    content is that prompt. *)
Theorem X13_answer_is_returned_stripped
  (client : openai_t) (document_text api_key content : Py.str)
  (log : list action) :
  api_key <> [] ->
  client api_key chat_model (build_prompt document_text) 1024%N = inr content ->
  evaluate_proposal (Some client) document_text api_key log
  = (inr (Some (strip content)),
     log ++ [SetApiKey api_key; BuildPrompt document_text;
             ChatCompletionCreate chat_model (build_prompt document_text) 1024]).
Proof.
  intros Hkey Hanswer.
  rewrite evaluate_proposal_request by (destruct api_key; [contradiction|reflexivity]).
  cbn zeta. rewrite Hanswer. reflexivity.
Qed.

Lemma X13_answer_is_returned_stripped_witness :
  fst (evaluate_proposal (Some (constant_client (lit " Strong team. " ++ LF)))
         (lit "Proposal about X") (lit "sk-test") [])
  = inr (Some (lit "Strong team.")).
Proof.
  refine (f_equal fst
           (@X13_answer_is_returned_stripped
              (constant_client (lit " Strong team. " ++ LF))
              (lit "Proposal about X") (lit "sk-test") _ [] _ eq_refl)).
  discriminate.
Defined.

(** X14: an exception raised by the request does not leave
    [evaluate_proposal]: it returns [None] and shows
    "Error communicating with OpenAI API: " followed by the text of the
    exception, after the one request it made. *)
Theorem X14_endpoint_failure_is_reported
  (client : openai_t) (document_text api_key : Py.str) (exc : exn)
  (log : list action) :
  api_key <> [] ->
  client api_key chat_model (build_prompt document_text) 1024%N = inl exc ->
  evaluate_proposal (Some client) document_text api_key log
  = (inr None,
     log ++ [SetApiKey api_key; BuildPrompt document_text;
             ChatCompletionCreate chat_model (build_prompt document_text) 1024;
             StError (lit "Error communicating with OpenAI API: " ++ exn_str exc)]).
Proof.
  intros Hkey Hraise.
  rewrite evaluate_proposal_request by (destruct api_key; [contradiction|reflexivity]).
  cbn zeta. rewrite Hraise. reflexivity.
Qed.

Lemma X14_endpoint_failure_is_reported_witness :
  evaluate_proposal (Some refusing_client) (lit "Proposal about X") (lit "sk-bad") []
  = (inr None,
     [SetApiKey (lit "sk-bad"); BuildPrompt (lit "Proposal about X");
      ChatCompletionCreate chat_model (build_prompt (lit "Proposal about X")) 1024;
      StError (lit "Error communicating with OpenAI API: Incorrect API key provided")]).
Proof.
  refine (@X14_endpoint_failure_is_reported
            refusing_client (lit "Proposal about X") (lit "sk-bad") _ [] _ eq_refl).
  discriminate.
Defined.

(** X15: one call of [evaluate_proposal] sends at most one request, and a
    request is sent only with the module available and a non-empty key; it
    names the model [gpt-5-mini-2025-08-07], asks for at most 1024 tokens and
    carries the prompt built from the document, after the key was set. *)
Theorem X15_requests_are_well_formed
  (openai : option openai_t) (document_text api_key : Py.str) :
  let acts := snd (evaluate_proposal openai document_text api_key []) in
  List.length (filter is_request acts) <= 1
  /\ forall (model content : Py.str) (max_tokens : N),
      In (ChatCompletionCreate model content max_tokens) acts ->
      openai <> None /\ api_key <> []
      /\ model = chat_model /\ max_tokens = 1024%N
      /\ content = build_prompt document_text
      /\ exists rest,
          acts = SetApiKey api_key :: BuildPrompt document_text
                 :: ChatCompletionCreate model content max_tokens :: rest.
Proof.
  intros acts. subst acts.
  destruct openai as [client|].
  - destruct (falsy api_key) eqn:Hkey.
    + unfold evaluate_proposal. rewrite Hkey. cbn. split; [lia|].
      intros model content max_tokens [H|[]]. discriminate H.
    + assert (Hne : api_key <> []) by (intros ->; discriminate Hkey).
      rewrite evaluate_proposal_request by exact Hkey.
      cbn zeta. destruct (client api_key _ _ _) as [exc|content'];
        cbn [snd app filter is_request List.length]; (split; [lia|]);
        intros model content max_tokens H;
        cbn [In] in H;
        destruct H as [H|[H|[H|H]]]; try discriminate H;
        try (destruct H as [H|[]]; discriminate H); try contradiction;
        injection H as <- <- <-;
        (split; [discriminate|]); (split; [exact Hne|]);
        repeat (split; [reflexivity|]); eexists; reflexivity.
  - cbn. split; [lia|].
    intros model content max_tokens [H|[]]. discriminate H.
Qed.

Lemma X15_requests_are_well_formed_witness :
  In (ChatCompletionCreate chat_model (build_prompt (lit "Proposal about X")) 1024)
     (snd (evaluate_proposal (Some echo_client) (lit "Proposal about X")
                             (lit "sk-test") []))
  /\ lit "sk-test" <> [].
Proof.
  split.
  - right. right. left. reflexivity.
  - refine (proj1 (proj2 (proj2 (@X15_requests_are_well_formed
             (Some echo_client) (lit "Proposal about X") (lit "sk-test"))
             chat_model (build_prompt (lit "Proposal about X")) 1024%N _))).
    right. right. left. reflexivity.
Defined.

(** ** [main] *)

Lemma extract_returns (PdfReader : option PdfReader_t)
      (Document : option Document_t) (data : Py.bytes) (mime_type : Py.str) :
  exists text cs, extract PdfReader Document data mime_type = (inr text, cs).
Proof.
  unfold extract.
  destruct (extract_text_returns PdfReader Document mime_type
              {| file_buffer := BytesIO_new data; calls := [] |} eq_refl)
    as [text [w' ->]].
  exists text, (calls w'). reflexivity.
Qed.

Lemma evaluate_proposal_returns (openai : option openai_t)
      (document_text api_key : Py.str) (log : list action) :
  exists r acts,
    evaluate_proposal openai document_text api_key log = (inr r, log ++ acts).
Proof.
  destruct openai as [client|].
  - destruct (falsy api_key) eqn:Hkey.
    + unfold evaluate_proposal. rewrite Hkey. eexists _, _. reflexivity.
    + rewrite evaluate_proposal_request by exact Hkey. cbn zeta.
      destruct (client api_key _ _ _); eexists _, _; reflexivity.
  - eexists _, _. reflexivity.
Qed.

Section MainRuns.

Variable PdfReader : option PdfReader_t.
Variable Document : option Document_t.
Variable openai : option openai_t.
Variable getenv_OPENAI_API_KEY : Py.str -> Py.str.
Variable text_input : Py.str -> Py.str.
Variable button : bool.

(** A run without an upload. *)
Lemma main_run_no_upload (log : list st_call) :
  main PdfReader Document openai getenv_OPENAI_API_KEY text_input None button log
  = (inr tt, log ++ main_widgets (getenv_OPENAI_API_KEY [])).
Proof.
  unfold main, bind, st, ret, main_widgets.
  rewrite <- !app_assoc. reflexivity.
Qed.

(** A run with an upload, given what the extraction and the evaluation
    give. *)
Lemma main_run_upload (f : UploadedFile) (text : Py.str) (cs : list call)
      (r : option Py.str) (acts : list action) (log : list st_call) :
  extract PdfReader Document (upload_data f) (upload_type f) = (inr text, cs) ->
  evaluate_proposal openai text (text_input (getenv_OPENAI_API_KEY [])) []
  = (inr r, acts) ->
  main PdfReader Document openai getenv_OPENAI_API_KEY text_input (Some f) button log
  = (inr tt,
     log ++ main_widgets (getenv_OPENAI_API_KEY []) ++ map Extracting cs
         ++ (if falsy text then [StErrorMain extraction_failed_message]
             else StWrite (extracted_message text)
                  :: StButton (lit "Evaluate Proposal")
                  :: (if button
                      then StSpinnerEnter (lit "Evaluating... this may take a minute")
                           :: map Evaluating acts
                           ++ analysis_display r ++ [StSpinnerExit]
                      else []))).
Proof.
  intros Hextract Heval.
  unfold main, bind, st, ret, main_widgets, call_extract_text.
  rewrite Hextract.
  destruct (falsy text).
  - rewrite <- !app_assoc. reflexivity.
  - destruct button.
    + unfold with_spinner, bind, call_evaluate_proposal. rewrite Heval.
      unfold analysis_display, analysis_heading, st, ret.
      destruct (falsy (or_empty r)); rewrite <- !app_assoc; reflexivity.
    + rewrite <- !app_assoc. reflexivity.
Qed.

End MainRuns.

Lemma no_request_while_extracting (cs : list call) :
  existsb sends_request (map Extracting cs) = false.
Proof. induction cs as [|c cs IH]; [reflexivity | exact IH]. Qed.

Lemma requests_while_evaluating (acts : list action) :
  existsb sends_request (map Evaluating acts) = existsb is_request acts.
Proof.
  induction acts as [|a acts IH]; [reflexivity|].
  simpl. rewrite IH. reflexivity.
Qed.

Lemma no_request_in_display (r : option Py.str) :
  existsb sends_request (analysis_display r) = false.
Proof. unfold analysis_display. destruct (falsy _); reflexivity. Qed.

(** A request is made exactly when the module is there and the key is not
    empty. *)
Lemma evaluate_proposal_requests (openai : option openai_t)
      (document_text api_key : Py.str) :
  existsb is_request (snd (evaluate_proposal openai document_text api_key []))
  = is_some openai && negb (falsy api_key).
Proof.
  destruct openai as [client|]; [|reflexivity].
  destruct (falsy api_key) eqn:Hkey.
  - unfold evaluate_proposal. rewrite Hkey. reflexivity.
  - rewrite evaluate_proposal_request by exact Hkey. cbn zeta.
    destruct (client api_key _ _ _); reflexivity.
Qed.

Lemma evaluate_proposal_answer_trimmed (openai : option openai_t)
      (document_text api_key answer : Py.str) (log log' : list action) :
  evaluate_proposal openai document_text api_key log = (inr (Some answer), log') ->
  trimmed answer = true.
Proof.
  destruct openai as [client|]; [|discriminate].
  destruct (falsy api_key) eqn:Hkey.
  - unfold evaluate_proposal. rewrite Hkey. discriminate.
  - rewrite evaluate_proposal_request by exact Hkey. cbn zeta.
    destruct (client api_key _ _ _); [discriminate|].
    intros H. injection H as <- _. apply trimmed_strip.
Qed.

(** X16: a run of [main] never raises: whatever is uploaded and whatever
    the parsers and the endpoint do, it returns, after rendering the page
    configuration, the title, the introduction, the key field (which starts
    with the value of [OPENAI_API_KEY], or empty) and the file uploader. *)
Theorem X16_main_returns
  (PdfReader : option PdfReader_t) (Document : option Document_t)
  (openai : option openai_t) (getenv_OPENAI_API_KEY text_input : Py.str -> Py.str)
  (file_uploader : option UploadedFile) (button : bool) (log : list st_call) :
  exists shown : list st_call,
    main PdfReader Document openai getenv_OPENAI_API_KEY text_input
         file_uploader button log
    = (inr tt, log ++ main_widgets (getenv_OPENAI_API_KEY []) ++ shown).
Proof.
  destruct file_uploader as [f|].
  - destruct (extract_returns PdfReader Document (upload_data f) (upload_type f))
      as [text [cs Hextract]].
    destruct (evaluate_proposal_returns openai text
                (text_input (getenv_OPENAI_API_KEY [])) [])
      as [r [acts Heval]].
    erewrite main_run_upload by (try exact Hextract; exact Heval).
    eexists. reflexivity.
  - rewrite main_run_no_upload. exists []. rewrite app_nil_r. reflexivity.
Qed.

(** X17: a run of [main] sends a request to the endpoint exactly when a
    file is uploaded, the text extracted from it is not empty, the button is
    pressed, the [openai] module is available and the key field is not
    empty. *)
Theorem X17_request_conditions
  (PdfReader : option PdfReader_t) (Document : option Document_t)
  (openai : option openai_t) (getenv_OPENAI_API_KEY text_input : Py.str -> Py.str)
  (file_uploader : option UploadedFile) (button : bool) :
  existsb sends_request
          (snd (main PdfReader Document openai getenv_OPENAI_API_KEY text_input
                     file_uploader button []))
  = match file_uploader with
    | None => false
    | Some f =>
      match fst (extract PdfReader Document (upload_data f) (upload_type f)) with
      | inr proposal_text =>
        negb (falsy proposal_text) && button && is_some openai
        && negb (falsy (text_input (getenv_OPENAI_API_KEY [])))
      | inl _ => false
      end
    end.
Proof.
  destruct file_uploader as [f|].
  - destruct (extract_returns PdfReader Document (upload_data f) (upload_type f))
      as [text [cs Hextract]].
    pose proof (evaluate_proposal_requests openai text
                  (text_input (getenv_OPENAI_API_KEY []))) as Hreq.
    destruct (evaluate_proposal_returns openai text
                (text_input (getenv_OPENAI_API_KEY [])) [])
      as [r [acts Heval]].
    rewrite Heval in Hreq. cbn [snd app] in Hreq.
    erewrite main_run_upload by (try exact Hextract; exact Heval).
    rewrite Hextract. cbn [fst snd app].
    rewrite !existsb_app, no_request_while_extracting.
    destruct (falsy text); [reflexivity|].
    destruct button; [|reflexivity].
    cbn [existsb sends_request orb negb andb].
    rewrite !existsb_app, requests_while_evaluating, no_request_in_display, Hreq.
    cbn. rewrite !orb_false_r. reflexivity.
  - rewrite main_run_no_upload. reflexivity.
Qed.

(** X18: when the text extracted from the upload is empty, [main] shows
    the message that the file could not be read and stops there: the button
    is not offered and nothing is evaluated, whatever the key. *)
Theorem X18_empty_extraction_is_reported
  (PdfReader : option PdfReader_t) (Document : option Document_t)
  (openai : option openai_t) (getenv_OPENAI_API_KEY text_input : Py.str -> Py.str)
  (f : UploadedFile) (button : bool) (cs : list call) (log : list st_call) :
  extract PdfReader Document (upload_data f) (upload_type f) = (inr [], cs) ->
  main PdfReader Document openai getenv_OPENAI_API_KEY text_input
       (Some f) button log
  = (inr tt,
     log ++ main_widgets (getenv_OPENAI_API_KEY []) ++ map Extracting cs
         ++ [StErrorMain extraction_failed_message]).
Proof.
  intros Hextract.
  destruct (evaluate_proposal_returns openai []
              (text_input (getenv_OPENAI_API_KEY [])) [])
    as [r [acts Heval]].
  erewrite main_run_upload by (try exact Hextract; exact Heval).
  reflexivity.
Qed.

Lemma X18_empty_extraction_is_reported_witness :
  snd (main None None (Some echo_client) (fun default => default)
            (fun _ => lit "sk-test")
            (Some {| upload_type := lit "text/plain"; upload_data := [] |})
            true [])
  = main_widgets [] ++ [Extracting (CallSeek 0); Extracting CallRead;
                        StErrorMain extraction_failed_message].
Proof.
  exact (f_equal snd
           (@X18_empty_extraction_is_reported
              None None (Some echo_client) (fun default => default)
              (fun _ => lit "sk-test")
              {| upload_type := lit "text/plain"; upload_data := [] |}
              true [CallSeek 0; CallRead] [] eq_refl)).
Defined.

Lemma heading_not_a_widget (value : Py.str) :
  ~ In (StSubheader analysis_heading) (main_widgets value).
Proof.
  unfold main_widgets. cbn [In].
  intros [H|[H|[H|[H|[H|[]]]]]]; discriminate H.
Qed.

(** X19: the heading of the analysis is shown only after a pressed button
    and an answer of the endpoint that is not empty once stripped; the answer
    is then shown with it.  A missing module, a missing key, a failed request
    or an answer of whitespace alone shows no analysis. *)
Theorem X19_analysis_shown_only_with_answer
  (PdfReader : option PdfReader_t) (Document : option Document_t)
  (openai : option openai_t) (getenv_OPENAI_API_KEY text_input : Py.str -> Py.str)
  (file_uploader : option UploadedFile) (button : bool) :
  In (StSubheader analysis_heading)
     (snd (main PdfReader Document openai getenv_OPENAI_API_KEY text_input
                file_uploader button [])) ->
  exists (f : UploadedFile) (proposal_text answer : Py.str),
    file_uploader = Some f
    /\ fst (extract PdfReader Document (upload_data f) (upload_type f))
       = inr proposal_text
    /\ proposal_text <> []
    /\ button = true
    /\ fst (evaluate_proposal openai proposal_text
              (text_input (getenv_OPENAI_API_KEY [])) [])
       = inr (Some answer)
    /\ answer <> []
    /\ trimmed answer = true
    /\ In (StMarkdown answer)
          (snd (main PdfReader Document openai getenv_OPENAI_API_KEY text_input
                     file_uploader button [])).
Proof.
  intros H. destruct file_uploader as [f|].
  2: { rewrite main_run_no_upload in H. cbn [snd app] in H.
       exfalso. eapply heading_not_a_widget. exact H. }
  destruct (extract_returns PdfReader Document (upload_data f) (upload_type f))
    as [text [cs Hextract]].
  destruct (evaluate_proposal_returns openai text
              (text_input (getenv_OPENAI_API_KEY [])) [])
    as [r [acts Heval]].
  cbn [app] in Heval.
  erewrite main_run_upload in H by (try exact Hextract; exact Heval).
  erewrite main_run_upload by (try exact Hextract; exact Heval).
  cbn [snd app] in *.
  apply in_app_or in H as [H|H]; [exfalso; eapply heading_not_a_widget; exact H|].
  apply in_app_or in H as [H|H].
  { apply in_map_iff in H as [c [Hc _]]. discriminate Hc. }
  destruct (falsy text) eqn:Htext.
  { destruct H as [H|[]]. discriminate H. }
  destruct H as [H|[H|H]]; try discriminate H.
  destruct button; [|destruct H].
  destruct H as [H|H]; [discriminate H|].
  apply in_app_or in H as [H|H].
  { apply in_map_iff in H as [a [Ha _]]. discriminate Ha. }
  apply in_app_or in H as [H|H]; [|destruct H as [H|[]]; discriminate H].
  unfold analysis_display in H.
  destruct (falsy (or_empty r)) eqn:Hr; [destruct H|].
  destruct r as [answer|]; [|discriminate Hr]. cbn [or_empty] in Hr.
  exists f, text, answer.
  split; [reflexivity|]. split; [rewrite Hextract; reflexivity|].
  split; [intros ->; discriminate Htext|]. split; [reflexivity|].
  split; [rewrite Heval; reflexivity|].
  split; [intros ->; discriminate Hr|].
  split; [eapply evaluate_proposal_answer_trimmed; exact Heval|].
  apply in_or_app. right. apply in_or_app. right.
  right. right. right. apply in_or_app. right. apply in_or_app. left.
  unfold analysis_display. cbn [or_empty]. rewrite Hr. right. left. reflexivity.
Qed.

Lemma X19_analysis_shown_only_with_answer_witness :
  exists (f : UploadedFile) (proposal_text answer : Py.str),
    Some {| upload_type := lit "text/plain"; upload_data := blit "idea" |} = Some f
    /\ fst (extract None None (upload_data f) (upload_type f)) = inr proposal_text
    /\ proposal_text <> []
    /\ true = true
    /\ fst (evaluate_proposal (Some (constant_client (lit " Strong team. ")))
              proposal_text (lit "sk-test") [])
       = inr (Some answer)
    /\ answer <> []
    /\ trimmed answer = true
    /\ In (StMarkdown answer)
          (snd (main None None (Some (constant_client (lit " Strong team. ")))
                     (fun default => default) (fun _ => lit "sk-test")
                     (Some {| upload_type := lit "text/plain";
                              upload_data := blit "idea" |})
                     true [])).
Proof.
  refine (@X19_analysis_shown_only_with_answer
            None None (Some (constant_client (lit " Strong team. ")))
            (fun default => default) (fun _ => lit "sk-test")
            (Some {| upload_type := lit "text/plain"; upload_data := blit "idea" |})
            true _).
  vm_compute. do 13 right. left. reflexivity.
Defined.

(** X20: end to end for a plain-text upload: with a media type that
    selects no parser, bytes that decode to a non-empty text, the button
    pressed, the module available and a non-empty key field, [main] reads
    the whole upload, reports the number of characters, sets the key to the
    content of the key field and sends one request whose content is the
    prompt built from the decoded text. *)
Theorem X20_plain_text_upload_is_sent
  (PdfReader : option PdfReader_t) (Document : option Document_t)
  (client : openai_t) (getenv_OPENAI_API_KEY text_input : Py.str -> Py.str)
  (f : UploadedFile) (log : list st_call) :
  let proposal_text := decode_utf8_ignore (upload_data f) in
  let api_key := text_input (getenv_OPENAI_API_KEY []) in
  str_in (upload_type f) [mime_pdf; mime_docx; mime_msword] = false ->
  proposal_text <> [] ->
  api_key <> [] ->
  exists shown : list st_call,
    main PdfReader Document (Some client) getenv_OPENAI_API_KEY text_input
         (Some f) true log
    = (inr tt,
       log ++ main_widgets (getenv_OPENAI_API_KEY [])
           ++ [Extracting (CallSeek 0); Extracting CallRead;
               StWrite (extracted_message proposal_text);
               StButton (lit "Evaluate Proposal");
               StSpinnerEnter (lit "Evaluating... this may take a minute");
               Evaluating (SetApiKey api_key);
               Evaluating (BuildPrompt proposal_text);
               Evaluating (ChatCompletionCreate chat_model
                             (build_prompt proposal_text) 1024)]
           ++ shown)
    /\ existsb sends_request shown = false.
Proof.
  intros proposal_text api_key Hmime Htext Hkey.
  assert (Hfalsy : falsy proposal_text = false)
    by (destruct proposal_text; [contradiction | reflexivity]).
  assert (Hkeyb : falsy api_key = false)
    by (destruct api_key; [contradiction | reflexivity]).
  pose proof (extract_plain PdfReader Document (upload_data f) (upload_type f) Hmime)
    as Hextract.
  fold proposal_text in Hextract.
  pose proof (@evaluate_proposal_request client proposal_text api_key [] Hkeyb) as Heval.
  cbn zeta in Heval. cbn [app] in Heval. fold api_key.
  destruct (client api_key chat_model (build_prompt proposal_text) 1024%N)
    as [exc|content].
  - erewrite main_run_upload by (try exact Hextract; exact Heval).
    rewrite Hfalsy. eexists. split.
    + cbn [map app]. reflexivity.
    + reflexivity.
  - erewrite main_run_upload by (try exact Hextract; exact Heval).
    rewrite Hfalsy. eexists. split.
    + cbn [map app]. reflexivity.
    + rewrite existsb_app, no_request_in_display. reflexivity.
Qed.

Lemma X20_plain_text_upload_is_sent_witness :
  exists shown : list st_call,
    main None None (Some echo_client) (fun default => default)
         (fun _ => lit "sk-test")
         (Some {| upload_type := lit "text/plain"; upload_data := blit "idea" |})
         true []
    = (inr tt,
       main_widgets []
           ++ [Extracting (CallSeek 0); Extracting CallRead;
               StWrite (extracted_message (lit "idea"));
               StButton (lit "Evaluate Proposal");
               StSpinnerEnter (lit "Evaluating... this may take a minute");
               Evaluating (SetApiKey (lit "sk-test"));
               Evaluating (BuildPrompt (lit "idea"));
               Evaluating (ChatCompletionCreate chat_model
                             (build_prompt (lit "idea")) 1024)]
           ++ shown)
    /\ existsb sends_request shown = false.
Proof.
  refine (@X20_plain_text_upload_is_sent
            None None echo_client (fun default => default)
            (fun _ => lit "sk-test")
            {| upload_type := lit "text/plain"; upload_data := blit "idea" |}
            [] eq_refl _ _); discriminate.
Defined.

(** X21: an upload that decodes to whitespace alone is not reported as
    unreadable: with a media type that selects no parser, [main] shows the
    character count instead of the error message, and, the button pressed,
    with the module and a key, it sends the instructions and the separator
    with an empty document. *)
Theorem X21_whitespace_upload_is_evaluated
  (PdfReader : option PdfReader_t) (Document : option Document_t)
  (client : openai_t) (getenv_OPENAI_API_KEY text_input : Py.str -> Py.str)
  (f : UploadedFile) :
  let proposal_text := decode_utf8_ignore (upload_data f) in
  let run := snd (main PdfReader Document (Some client) getenv_OPENAI_API_KEY
                       text_input (Some f) true []) in
  str_in (upload_type f) [mime_pdf; mime_docx; mime_msword] = false ->
  proposal_text <> [] ->
  forallb isspace proposal_text = true ->
  text_input (getenv_OPENAI_API_KEY []) <> [] ->
  ~ In (StErrorMain extraction_failed_message) run
  /\ In (StWrite (extracted_message proposal_text)) run
  /\ In (Evaluating (ChatCompletionCreate chat_model prompt_header 1024)) run.
Proof.
  intros proposal_text run Hmime Htext Hspaces Hkey. subst run.
  assert (Hfalsy : falsy proposal_text = false)
    by (destruct proposal_text; [contradiction | reflexivity]).
  assert (Hkeyb : falsy (text_input (getenv_OPENAI_API_KEY [])) = false)
    by (destruct (text_input _); [contradiction | reflexivity]).
  assert (Hprompt : build_prompt proposal_text = prompt_header).
  { rewrite build_prompt_header, (strip_spaces _ Hspaces). apply app_nil_r. }
  pose proof (extract_plain PdfReader Document (upload_data f) (upload_type f) Hmime)
    as Hextract.
  fold proposal_text in Hextract.
  destruct (evaluate_proposal_returns (Some client) proposal_text
              (text_input (getenv_OPENAI_API_KEY [])) [])
    as [r [acts Heval]].
  cbn [app] in Heval.
  assert (Hsent : In (ChatCompletionCreate chat_model prompt_header 1024) acts).
  { rewrite evaluate_proposal_request in Heval by exact Hkeyb.
    cbn zeta in Heval. rewrite Hprompt in Heval.
    destruct (client _ _ _ _); injection Heval as _ <-;
      cbn [app]; right; right; left; reflexivity. }
  erewrite main_run_upload by (try exact Hextract; exact Heval).
  rewrite Hfalsy. cbn [snd app map].
  split; [|split].
  - intros H. apply in_app_or in H as [H|H].
    { unfold main_widgets in H. cbn [In] in H.
      destruct H as [H|[H|[H|[H|[H|[]]]]]]; discriminate H. }
    cbn [In] in H. destruct H as [H|[H|[H|[H|[H|H]]]]]; try discriminate H.
    apply in_app_or in H as [H|H].
    { apply in_map_iff in H as [a [Ha _]]. discriminate Ha. }
    apply in_app_or in H as [H|H]; [|destruct H as [H|[]]; discriminate H].
    unfold analysis_display in H. destruct (falsy (or_empty r));
      [destruct H | destruct H as [H|[H|[]]]; discriminate H].
  - apply in_or_app. right. right. right. left. reflexivity.
  - apply in_or_app. right. do 5 right. apply in_or_app. left.
    apply in_map. exact Hsent.
Qed.

Lemma X21_whitespace_upload_is_evaluated_witness :
  In (Evaluating (ChatCompletionCreate chat_model prompt_header 1024))
     (snd (main None None (Some echo_client) (fun default => default)
                (fun _ => lit "sk-test")
                (Some {| upload_type := lit "text/plain";
                         upload_data := blit "   " |})
                true [])).
Proof.
  refine (proj2 (proj2 (@X21_whitespace_upload_is_evaluated
            None None echo_client (fun default => default)
            (fun _ => lit "sk-test")
            {| upload_type := lit "text/plain"; upload_data := blit "   " |}
            eq_refl _ eq_refl _))); discriminate.
Defined.

(** X22: the one way [extract_text] raises: the first [seek(0)] stands
    outside every [try], so on a closed buffer its [ValueError] leaves the
    function, before any parser is called; on an open buffer nothing is
    raised. *)
Theorem X22_only_a_closed_buffer_raises
  (PdfReader : option PdfReader_t) (Document : option Document_t)
  (mime_type : Py.str) (w : world) :
  match extract_text PdfReader Document mime_type w with
  | (inl e, w') =>
    closed (file_buffer w) = true /\ e = closed_file
    /\ calls w' = calls w ++ [CallSeek 0]
  | (inr _, _) => closed (file_buffer w) = false
  end.
Proof.
  destruct (closed (file_buffer w)) eqn:Hclosed.
  - unfold extract_text, bind at 1, seek. rewrite Hclosed.
    repeat split; reflexivity.
  - destruct (extract_text_returns PdfReader Document mime_type w Hclosed)
      as [text [w' ->]].
    reflexivity.
Qed.
